(** * Emogo: record capture, local persistence, upload and export

    A shallow embedding of the [EmogoScreen] component of the Emogo
    front end.  Three variants of the screen are modelled:

    - [Upload]        : [app/_test/_index.js], the variant that inserts into
                        SQLite and then uploads metadata and video;
    - [FileExport]    : the variant whose [exportLogsAsJson] writes a JSON
                        file and shares it;
    - [BrowserExport] : the variant whose [exportLogsAsJson] opens the JSON
                        in a browser page.

    React state is an explicit record.  A handler is an action of a small
    state-and-exception monad over the system (the React state and the
    SQLite database) that also returns the platform calls it made, in order;
    every answer of the platform (clock, permissions, GPS, storage, network)
    is an explicit argument of the handler. *)

From Stdlib Require Import ZArith List String Ascii Bool Lia.
From Stdlib Require Import PrimFloat FloatOps SpecFloat DecimalString DecimalZ.
From Stdlib Require Import Sorting.Sorted Sorting.Permutation.
Import ListNotations.

Set Warnings "-inexact-float,-register-all".

Local Open Scope string_scope.
Local Open Scope list_scope.
Local Open Scope Z_scope.

(** ** JavaScript values used by the screen *)

(** A row of the [logs] table, and also an element of the [logs] state:
    [{ id, timestamp, mood, videoUri, lat, lng }]. *)
Module Log.
Record t : Type := mk {
  id : Z;
  timestamp : string;
  mood : Z;
  videoUri : string;
  lat : float;
  lng : float
}.
End Log.

(** [{ lat, lng }] *)
Record Coords : Type := mkCoords { c_lat : float; c_lng : float }.

(** Truthiness of a value that is [null] or a string: [!v] holds for [null]
    and for the empty string. *)
Definition truthy (v : option string) : bool :=
  match v with
  | None => false
  | Some s => negb (String.eqb s EmptyString)
  end.

(** [v || ""] for a value that is [null] or a string. *)
Definition or_empty (v : option string) : string :=
  match v with
  | None => EmptyString
  | Some s => s
  end.

(** [arr.slice(0, n)] *)
Definition slice0 {A : Type} (n : nat) (l : list A) : list A := firstn n l.

(** [(prev) => [newLog, ...prev].slice(0, 5)] *)
Definition push_recent (newLog : Log.t) (prev : list Log.t) : list Log.t :=
  slice0 5 (newLog :: prev).

(** ** The SQLite table [logs] *)

Module Sqlite.

(** The table in storage order together with the AUTOINCREMENT counter that
    SQLite keeps in [sqlite_sequence]. *)
Record t : Type := mk { rows : list Log.t; seq : Z }.

(** [CREATE TABLE IF NOT EXISTS logs (...)] on a database file that does not
    exist yet. *)
Definition empty : t := mk [] 0.

Fixpoint max_rowid (l : list Log.t) : Z :=
  match l with
  | [] => 0
  | r :: l' => Z.max (Log.id r) (max_rowid l')
  end.

(** The rowid AUTOINCREMENT gives to the next row: one more than the largest
    rowid the table has ever held. *)
Definition next_rowid (d : t) : Z := Z.max (max_rowid (rows d)) (seq d) + 1.

(** [INSERT INTO logs (timestamp, mood, videoUri, lat, lng) VALUES (?,?,?,?,?)] *)
Definition insert (ts : string) (m : Z) (v : string) (la lo : float) (d : t) : t :=
  let i := next_rowid d in
  mk (rows d ++ [Log.mk i ts m v la lo]) i.

(** [DELETE FROM logs]: the rows go, the AUTOINCREMENT counter stays. *)
Definition delete_all (d : t) : t := mk [] (seq d).

(** [ORDER BY id ASC], by insertion. *)
Fixpoint insert_by_id (r : Log.t) (l : list Log.t) : list Log.t :=
  match l with
  | [] => [r]
  | x :: l' => if Log.id r <=? Log.id x then r :: l else x :: insert_by_id r l'
  end.

Fixpoint order_by_id (l : list Log.t) : list Log.t :=
  match l with
  | [] => []
  | r :: l' => insert_by_id r (order_by_id l')
  end.

(** [SELECT * FROM logs ORDER BY id ASC;] *)
Definition select_asc (d : t) : list Log.t := order_by_id (rows d).

(** [SELECT * FROM logs ORDER BY id DESC LIMIT 5;] *)
Definition select_desc_limit5 (d : t) : list Log.t := firstn 5 (rev (select_asc d)).

Definition by_id (a b : Log.t) : Prop := Log.id a < Log.id b.

(** What a well-formed table satisfies: rowids strictly ascending in storage
    order and none above the counter. *)
Definition wf (d : t) : Prop :=
  StronglySorted by_id (rows d) /\
  Forall (fun r => Log.id r <= seq d) (rows d).

(** The statements the screen ever runs against the table. *)
Inductive stmt : Type :=
| Insert (ts : string) (m : Z) (v : string) (la lo : float)
| DeleteAll.

Definition exec (d : t) (s : stmt) : t :=
  match s with
  | Insert ts m v la lo => insert ts m v la lo d
  | DeleteAll => delete_all d
  end.

(** The table after a history of statements. *)
Definition replay (d : t) (h : list stmt) : t := fold_left exec h d.

(** A record without its id: (timestamp, mood, videoUri, lat, lng). *)
Definition fields (r : Log.t) : string * Z * string * float * float :=
  (Log.timestamp r, Log.mood r, Log.videoUri r, Log.lat r, Log.lng r).

(** The records a history leaves behind: those inserted after the last
    [DELETE], in insertion order. *)
Fixpoint surviving (acc : list (string * Z * string * float * float))
         (h : list stmt) : list (string * Z * string * float * float) :=
  match h with
  | [] => acc
  | Insert ts m v la lo :: h' => surviving (acc ++ [(ts, m, v, la, lo)]) h'
  | DeleteAll :: h' => surviving [] h'
  end.

End Sqlite.

(** ** Numbers and JSON text, as the JavaScript engine produces them *)

Module Js.

(** Decimal digits of an integer, [String(n)] for an integer-valued number of
    moderate size. *)
Definition Z_toString (z : Z) : string := NilZero.string_of_int (Z.to_int z).

Fixpoint zeros (n : nat) : string :=
  match n with
  | O => EmptyString
  | S n' => String "0" (zeros n')
  end.

(** Order of [a * 10^p] against [b * 2^q], for integers [a], [b >= 0]. *)
Definition cmp_scaled (a p b q : Z) : comparison :=
  (a * 10 ^ Z.max p 0 * 2 ^ Z.max (- q) 0 ?= b * 2 ^ Z.max q 0 * 10 ^ Z.max (- p) 0).

(** The least [n] from [n0] on with [b * 2^q < 10^n]; the search starts just
    below, at [log10 2] times the binary exponent. *)
Fixpoint decimal_exponent (fuel : nat) (n0 b q : Z) : Z :=
  match fuel with
  | O => n0
  | S fuel' =>
      match cmp_scaled 1 n0 b q with
      | Gt => n0
      | _ => decimal_exponent fuel' (n0 + 1) b q
      end
  end.

(** Does the decimal [s * 10^p] round to the double with mantissa [m] and
    exponent [e]?  [lo] and [hi] are the ends of its rounding interval in
    units of [2^(e-2)]; the ends belong to it when [m] is even. *)
Definition rounds_to (m lo hi q s p : Z) : bool :=
  let even := Z.even m in
  let above_lo := match cmp_scaled s p lo q with Gt => true | Eq => even | Lt => false end in
  let below_hi := match cmp_scaled s p hi q with Lt => true | Eq => even | Gt => false end in
  above_lo && below_hi.

(** The shortest digit string [s] (of [k] digits, searched upwards from [k])
    and the exponent [n] with [s * 10^(n-k)] rounding to the double, the
    closest to it among those of that length, the even one on a tie. *)
Fixpoint shortest (fuel : nat) (k nv m q : Z) (lo hi : Z) : Z * Z :=
  let p := nv - k in
  let v := 4 * m in
  let s_lo := (v * 2 ^ Z.max q 0 * 10 ^ Z.max (- p) 0) / (10 ^ Z.max p 0 * 2 ^ Z.max (- q) 0) in
  let s_hi := s_lo + 1 in
  let ok_lo := rounds_to m lo hi q s_lo p in
  let ok_hi := rounds_to m lo hi q s_hi p in
  let pick (s : Z) := if s =? 10 ^ k then (1, nv + 1) else (s, nv) in
  match fuel with
  | O => pick s_lo
  | S fuel' =>
      if ok_lo && ok_hi then
        match cmp_scaled (s_lo + s_hi) p (2 * v) q with
        | Gt => pick s_lo
        | Lt => pick s_hi
        | Eq => if Z.even s_lo then pick s_lo else pick s_hi
        end
      else if ok_lo then pick s_lo
      else if ok_hi then pick s_hi
      else shortest fuel' (k + 1) nv m q lo hi
  end.

Fixpoint take (n : nat) (s : string) : string :=
  match n, s with
  | S n', String c s' => String c (take n' s')
  | _, _ => EmptyString
  end.

Fixpoint drop (n : nat) (s : string) : string :=
  match n, s with
  | S n', String _ s' => drop n' s'
  | _, _ => s
  end.

(** Number::toString for a positive finite double [m * 2^e]. *)
Definition positive_toString (m e : Z) : string :=
  let boundary := (m =? 2 ^ 52) && (-1074 <? e) in
  let q := e - 2 in
  let lo := if boundary then 4 * m - 1 else 4 * m - 2 in
  let hi := 4 * m + 2 in
  let nv := decimal_exponent 8 ((e + Z.log2 m) * 30103 / 100000 - 1) (4 * m) q in
  let '(s, n) := shortest 17 1 nv m q lo hi in
  let digits := Z_toString s in
  let k := Z.of_nat (String.length digits) in
  if (k <=? n) && (n <=? 21) then (digits ++ zeros (Z.to_nat (n - k)))%string
  else if (0 <? n) && (n <=? 21) then
    (take (Z.to_nat n) digits ++ "." ++ drop (Z.to_nat n) digits)%string
  else if (-6 <? n) && (n <=? 0) then ("0." ++ zeros (Z.to_nat (- n)) ++ digits)%string
  else
    let ex := n - 1 in
    let sign := if 0 <=? ex then "+" else "-" in
    let mant := if k =? 1 then digits else (take 1 digits ++ "." ++ drop 1 digits)%string in
    (mant ++ "e" ++ sign ++ Z_toString (Z.abs ex))%string.

(** [String(x)] for a number [x]. *)
Definition Number_toString (x : float) : string :=
  match Prim2SF x with
  | S754_nan => "NaN"
  | S754_zero _ => "0"
  | S754_infinity false => "Infinity"
  | S754_infinity true => "-Infinity"
  | S754_finite false m e => positive_toString (Z.pos m) e
  | S754_finite true m e => ("-" ++ positive_toString (Z.pos m) e)%string
  end.

(** [x.toFixed(f)]: the integer [n] with [n / 10^f] closest to [x], the larger
    one on a tie, written with [f] decimals. *)
Definition positive_toFixed (f : nat) (m e : Z) : string :=
  let scaled := m * 10 ^ Z.of_nat f in
  let n := if 0 <=? e then scaled * 2 ^ e
           else (2 * scaled + 2 ^ (- e)) / 2 ^ (1 - e) in
  let digits := Z_toString n in
  let k := String.length digits in
  let padded := (zeros (S f - k) ++ digits)%string in
  let k' := String.length padded in
  match f with
  | O => padded
  | _ => (take (k' - f) padded ++ "." ++ drop (k' - f) padded)%string
  end.

Definition toFixed (f : nat) (x : float) : string :=
  match Prim2SF x with
  | S754_zero _ => positive_toFixed f 0 0
  | S754_finite s m e =>
      if 10 ^ 21 * 2 ^ Z.max (- e) 0 <=? Z.pos m * 2 ^ Z.max e 0
      then Number_toString x
      else ((if s then "-" else "") ++ positive_toFixed f (Z.pos m) e)%string
  | _ => Number_toString x
  end.

(** A number inside JSON text: non-finite numbers are written [null]. *)
Definition JSON_number (x : float) : string :=
  match Prim2SF x with
  | S754_nan | S754_infinity _ => "null"
  | _ => Number_toString x
  end.

Definition hex_digit (n : N) : ascii :=
  match n with
  | 0%N => "0" | 1%N => "1" | 2%N => "2" | 3%N => "3" | 4%N => "4"
  | 5%N => "5" | 6%N => "6" | 7%N => "7" | 8%N => "8" | 9%N => "9"
  | 10%N => "a" | 11%N => "b" | 12%N => "c" | 13%N => "d" | 14%N => "e"
  | _ => "f"
  end%char.

(** One character of a string inside JSON text. *)
Definition quote_char (c : ascii) : string :=
  let n := N_of_ascii c in
  if (n =? 34)%N then String "\" (String c EmptyString)
  else if (n =? 92)%N then "\\"
  else if (n =? 8)%N then "\b"
  else if (n =? 12)%N then "\f"
  else if (n =? 10)%N then "\n"
  else if (n =? 13)%N then "\r"
  else if (n =? 9)%N then "\t"
  else if (n <? 32)%N then
    ("\u00" ++ String (hex_digit (n / 16)) (String (hex_digit (n mod 16)) EmptyString))%string
  else String c EmptyString.

Fixpoint quote_chars (s : string) : string :=
  match s with
  | EmptyString => EmptyString
  | String c s' => (quote_char c ++ quote_chars s')%string
  end.

(** QuoteJSONString *)
Definition quote (s : string) : string :=
  String (ascii_of_N 34) (quote_chars s ++ String (ascii_of_N 34) EmptyString).

(** The values the screen hands to [JSON.stringify]. *)
Inductive json : Type :=
| JInt (z : Z)
| JNum (x : float)
| JStr (s : string)
| JArr (items : list json)
| JObj (members : list (string * json)).

Definition newline : string := String (ascii_of_N 10) EmptyString.

Fixpoint join (sep : string) (parts : list string) : string :=
  match parts with
  | [] => EmptyString
  | [x] => x
  | x :: rest => (x ++ sep ++ join sep rest)%string
  end.

(** SerializeJSONProperty with the given [gap], at the given indentation. *)
Fixpoint serialize (gap indent : string) (j : json) : string :=
  let stepback := indent in
  let indent' := (indent ++ gap)%string in
  let wrap (opening closing : string) (parts : list string) : string :=
    match parts with
    | [] => (opening ++ closing)%string
    | _ =>
        if String.eqb gap EmptyString
        then (opening ++ join "," parts ++ closing)%string
        else (opening ++ newline ++ indent' ++
              join ("," ++ newline ++ indent') parts ++
              newline ++ stepback ++ closing)%string
    end in
  match j with
  | JInt z => Z_toString z
  | JNum x => JSON_number x
  | JStr s => quote s
  | JArr items => wrap "[" "]" (map (serialize gap indent') items)
  | JObj members =>
      let colon := if String.eqb gap EmptyString then ":" else ": " in
      wrap "{" "}"
           (map (fun kv => (quote (fst kv) ++ colon ++ serialize gap indent' (snd kv))%string)
                members)
  end.

(** [JSON.stringify(value)] *)
Definition JSON_stringify (j : json) : string := serialize "" "" j.

(** [JSON.stringify(value, null, 2)] *)
Definition JSON_stringify_2 (j : json) : string := serialize "  " "" j.

(** The base64 alphabet and [btoa] on a string of bytes. *)
Definition base64_alphabet : string :=
  "ABCDEFGHIJKLMNOPQRSTUVWXYZabcdefghijklmnopqrstuvwxyz0123456789+/".

Definition base64_char (n : N) : ascii :=
  match String.get (N.to_nat n) base64_alphabet with
  | Some c => c
  | None => "="%char
  end.

Fixpoint btoa (s : string) : string :=
  match s with
  | EmptyString => EmptyString
  | String a EmptyString =>
      let x := N_of_ascii a in
      String (base64_char (x / 4))
        (String (base64_char (x mod 4 * 16)) "==")
  | String a (String b EmptyString) =>
      let x := N_of_ascii a in
      let y := N_of_ascii b in
      String (base64_char (x / 4))
        (String (base64_char (x mod 4 * 16 + y / 16))
           (String (base64_char (y mod 16 * 4)) "="))
  | String a (String b (String c rest)) =>
      let x := N_of_ascii a in
      let y := N_of_ascii b in
      let z := N_of_ascii c in
      String (base64_char (x / 4))
        (String (base64_char (x mod 4 * 16 + y / 16))
           (String (base64_char (y mod 16 * 4 + z / 64))
              (String (base64_char (z mod 64)) (btoa rest))))
  end%N.

(** Reading JSON text back: [JSON.parse], numbers read leniently. *)

(** What [JSON.parse] finds in a text; a number is kept as the literal that
    stands in the text. *)
Inductive parsed : Type :=
| PNull
| PBool (b : bool)
| PNum (literal : string)
| PStr (s : string)
| PArr (items : list parsed)
| PObj (members : list (string * parsed)).

Definition is_space (c : ascii) : bool :=
  let n := N_of_ascii c in
  ((n =? 32) || (n =? 10) || (n =? 13) || (n =? 9))%N.

Fixpoint skip_space (s : string) : string :=
  match s with
  | String c r => if is_space c then skip_space r else s
  | EmptyString => s
  end.

Definition is_digit (c : ascii) : bool :=
  let n := N_of_ascii c in ((48 <=? n) && (n <=? 57))%N.

(** The characters a JSON number is written with. *)
Definition is_number_char (c : ascii) : bool :=
  let n := N_of_ascii c in
  (is_digit c || (n =? 45) || (n =? 43) || (n =? 46) || (n =? 101) || (n =? 69))%N.

(** The longest run of number characters at the head of [s], and what follows. *)
Fixpoint span_number (s : string) : string * string :=
  match s with
  | String c r =>
      if is_number_char c
      then let (lit, rest) := span_number r in (String c lit, rest)
      else (EmptyString, s)
  | EmptyString => (EmptyString, EmptyString)
  end.

Definition hex_value (c : ascii) : option N :=
  let n := N_of_ascii c in
  (if is_digit c then Some (n - 48)
   else if (97 <=? n) && (n <=? 102) then Some (n - 87)
   else if (65 <=? n) && (n <=? 70) then Some (n - 55)
   else None)%N.

(** The bytes (UTF-8) of the code unit written as a backslash, [u] and the
    four hexadecimal digits [a b c d]. *)
Definition code_unit (a b c d : ascii) : option string :=
  match hex_value a, hex_value b, hex_value c, hex_value d with
  | Some x, Some y, Some z, Some w =>
      let n := (((x * 16 + y) * 16 + z) * 16 + w)%N in
      Some (if (n <? 128)%N then String (ascii_of_N n) EmptyString
            else if (n <? 2048)%N then
              String (ascii_of_N (192 + n / 64)) (String (ascii_of_N (128 + n mod 64)) EmptyString)
            else
              String (ascii_of_N (224 + n / 4096))
                (String (ascii_of_N (128 + n / 64 mod 64))
                   (String (ascii_of_N (128 + n mod 64)) EmptyString)))
  | _, _, _, _ => None
  end.

(** The character written [\c]. *)
Definition unescape (c : ascii) : option ascii :=
  let n := N_of_ascii c in
  (if (n =? 34) || (n =? 92) || (n =? 47) then Some c
   else if n =? 98 then Some (ascii_of_N 8)
   else if n =? 102 then Some (ascii_of_N 12)
   else if n =? 110 then Some (ascii_of_N 10)
   else if n =? 114 then Some (ascii_of_N 13)
   else if n =? 116 then Some (ascii_of_N 9)
   else None)%N.

(** The string whose opening quote has been read, up to its closing quote,
    and what follows. *)
Fixpoint read_string (s : string) : option (string * string) :=
  match s with
  | EmptyString => None
  | String c r =>
      let n := N_of_ascii c in
      if (n =? 34)%N then Some (EmptyString, r)
      else if (n =? 92)%N then
        match r with
        | String e r1 =>
            match unescape e with
            | Some ch =>
                match read_string r1 with
                | Some (t, rest) => Some (String ch t, rest)
                | None => None
                end
            | None =>
                if (N_of_ascii e =? 117)%N then
                  match r1 with
                  | String a (String b (String h (String l r2))) =>
                      match code_unit a b h l, read_string r2 with
                      | Some u, Some (t, rest) => Some ((u ++ t)%string, rest)
                      | _, _ => None
                      end
                  | _ => None
                  end
                else None
            end
        | EmptyString => None
        end
      else if (n <? 32)%N then None
      else
        match read_string r with
        | Some (t, rest) => Some (String c t, rest)
        | None => None
        end
  end.

(** The elements of an array after its opening bracket, at most [n] of them. *)
Fixpoint parse_items (n : nat) (item : string -> option (parsed * string)) (s : string)
  : option (list parsed * string) :=
  match n with
  | O => None
  | S n' =>
      match item (skip_space s) with
      | Some (v, r) =>
          match skip_space r with
          | String c r' =>
              if (N_of_ascii c =? 44)%N then
                match parse_items n' item r' with
                | Some (vs, r'') => Some (v :: vs, r'')
                | None => None
                end
              else if (N_of_ascii c =? 93)%N then Some ([v], r')
              else None
          | EmptyString => None
          end
      | None => None
      end
  end.

(** The members of an object after its opening brace, at most [n] of them. *)
Fixpoint parse_members (n : nat) (value : string -> option (parsed * string)) (s : string)
  : option (list (string * parsed) * string) :=
  match n with
  | O => None
  | S n' =>
      match skip_space s with
      | String q r =>
          if (N_of_ascii q =? 34)%N then
            match read_string r with
            | Some (k, r1) =>
                match skip_space r1 with
                | String c r2 =>
                    if (N_of_ascii c =? 58)%N then
                      match value (skip_space r2) with
                      | Some (v, r3) =>
                          match skip_space r3 with
                          | String d r4 =>
                              if (N_of_ascii d =? 44)%N then
                                match parse_members n' value r4 with
                                | Some (ms, r5) => Some ((k, v) :: ms, r5)
                                | None => None
                                end
                              else if (N_of_ascii d =? 125)%N then Some ([(k, v)], r4)
                              else None
                          | EmptyString => None
                          end
                      | None => None
                      end
                    else None
                | EmptyString => None
                end
            | None => None
            end
          else None
      | EmptyString => None
      end
  end.

(** [word] at the head of [s]: what follows it. *)
Fixpoint after_word (word s : string) : option string :=
  match word, s with
  | EmptyString, _ => Some s
  | String a w, String b r => if Ascii.eqb a b then after_word w r else None
  | String _ _, EmptyString => None
  end.

(** One JSON value at the head of [s] (nested at most [depth] deep), and what
    follows it. *)
Fixpoint parse_value (depth : nat) (s : string) : option (parsed * string) :=
  match depth with
  | O => None
  | S d =>
      match s with
      | EmptyString => None
      | String c r =>
          let n := N_of_ascii c in
          if is_number_char c then
            let (lit, rest) := span_number s in Some (PNum lit, rest)
          else if (n =? 34)%N then
            match read_string r with
            | Some (t, rest) => Some (PStr t, rest)
            | None => None
            end
          else if (n =? 91)%N then
            match skip_space r with
            | String c' r' =>
                if (N_of_ascii c' =? 93)%N then Some (PArr [], r')
                else match parse_items (String.length r) (parse_value d) r with
                     | Some (vs, rest) => Some (PArr vs, rest)
                     | None => None
                     end
            | EmptyString => None
            end
          else if (n =? 123)%N then
            match skip_space r with
            | String c' r' =>
                if (N_of_ascii c' =? 125)%N then Some (PObj [], r')
                else match parse_members (String.length r) (parse_value d) r with
                     | Some (ms, rest) => Some (PObj ms, rest)
                     | None => None
                     end
            | EmptyString => None
            end
          else
            match after_word "null" s, after_word "true" s, after_word "false" s with
            | Some rest, _, _ => Some (PNull, rest)
            | _, Some rest, _ => Some (PBool true, rest)
            | _, _, Some rest => Some (PBool false, rest)
            | _, _, _ => None
            end
      end
  end.

(** [JSON.parse(text)], with number literals left as they stand. *)
Definition JSON_parse (text : string) : option parsed :=
  match parse_value (String.length text) (skip_space text) with
  | Some (v, rest) =>
      match skip_space rest with
      | EmptyString => Some v
      | _ => None
      end
  | None => None
  end.

(** *** The number a literal denotes *)

Fixpoint all_chars (p : ascii -> bool) (s : string) : bool :=
  match s with
  | EmptyString => true
  | String c r => p c && all_chars p r
  end.

(** A non-empty run of number characters. *)
Definition number_literal (s : string) : bool :=
  match s with
  | EmptyString => false
  | _ => all_chars is_number_char s
  end.

(** The integer a literal of digits, with or without sign, denotes. *)
Definition decode_int (lit : string) : option Z :=
  option_map Z.of_int (NilZero.int_of_string lit).

(** [s] up to the first character that satisfies [p], and what follows that
    character, if there is one. *)
Fixpoint split_at (p : ascii -> bool) (s : string) : string * option string :=
  match s with
  | EmptyString => (EmptyString, None)
  | String c r =>
      if p c then (EmptyString, Some r)
      else let (a, b) := split_at p r in (String c a, b)
  end.

Definition digits_value (s : string) : option Z :=
  match NilZero.uint_of_string s with
  | Some u => Some (Z.of_N (N.of_uint u))
  | None => None
  end.

(** A decimal literal [-d.ddde+xx] as sign, digits [M] and exponent [E]: the
    number [M * 10^E]. *)
Definition decode_decimal (lit : string) : option (bool * Z * Z) :=
  let (neg, body) := match lit with
                     | String c r => if (N_of_ascii c =? 45)%N then (true, r) else (false, lit)
                     | EmptyString => (false, lit)
                     end in
  let (mant, ex) := split_at (fun c => (N_of_ascii c =? 101) || (N_of_ascii c =? 69))%N body in
  let (ip, fp) := split_at (fun c => N_of_ascii c =? 46)%N mant in
  let frac := match fp with Some f => f | None => EmptyString end in
  let exponent := match ex with
                  | None => Some 0
                  | Some x =>
                      match x with
                      | String c r =>
                          if (N_of_ascii c =? 43)%N then digits_value r
                          else decode_int x
                      | EmptyString => None
                      end
                  end in
  match digits_value ip, (match fp with Some f => digits_value f | None => Some 0 end), exponent with
  | Some i, Some f, Some x =>
      let k := Z.of_nat (String.length frac) in
      Some (neg, i * 10 ^ k + f, x - k)
  | _, _, _ => None
  end.

(** The double nearest to [M * 10^E], the even one on a tie. *)
Definition nearest_double (neg : bool) (M E : Z) : float :=
  if M =? 0 then (if neg then (-0)%float else 0%float) else
  let N := M * 10 ^ Z.max E 0 in
  let D := 10 ^ Z.max (- E) 0 in
  let L := Z.log2 N - Z.log2 D in
  let lv := if D * 2 ^ Z.max L 0 <=? N * 2 ^ Z.max (- L) 0 then L else L - 1 in
  let e := Z.max (lv - 52) (-1074) in
  let num := N * 2 ^ Z.max (- e) 0 in
  let den := D * 2 ^ Z.max e 0 in
  let q := num / den in
  let r := num mod den in
  let up := (den <? 2 * r) || ((den =? 2 * r) && Z.odd q) in
  let q1 := if up then q + 1 else q in
  let '(m, e1) := if q1 =? 2 ^ 53 then (2 ^ 52, e + 1) else (q1, e) in
  if 971 <? e1 then (if neg then neg_infinity else infinity)
  else match m with
       | Z.pos p => SF2Prim (S754_finite neg p e1)
       | _ => if neg then (-0)%float else 0%float
       end.

(** The number a JSON number literal denotes. *)
Definition decode_number (lit : string) : option float :=
  if number_literal lit then
    match decode_decimal lit with
    | Some (neg, M, E) => Some (nearest_double neg M E)
    | None => None
    end
  else None.

End Js.


(** ** Platform calls and the handler monad *)

(** What an awaited platform call comes back with: a value, or an exception. *)
Inductive Result (A : Type) : Type :=
| Val (a : A)
| Throw (e : string).
Arguments Val {A} a.
Arguments Throw {A} e.

(** A part of a [FormData] body. *)
Inductive FormValue : Type :=
| FormText (s : string)
| FormFile (uri : option string) (name type : string).

(** [result] of [ImagePicker.launchCameraAsync]. *)
Record CameraResult : Type := mkCameraResult {
  canceled : bool;
  assets : option (list string)
}.

(** The calls a handler makes on the platform, in the order it makes them. *)
Inductive Event : Type :=
| Alert (title : string) (message : option string)
| ConsoleLog (args : list string)
| OpenDatabase (name : string)
| ExecCreateTable
| RunAsync (s : Sqlite.stmt)
| GetAllAsc
| GetAllDescLimit5
| RequestLocationPermission
| GetCurrentPosition
| RequestCameraPermission
| LaunchCamera
| RequestNotificationPermission
| CancelAllScheduledNotifications
| ScheduleNotification (hour minute : Z)
| FetchJson (url body : string)
| FetchForm (url : string) (form : list (string * FormValue))
| WriteFile (uri content : string)
| ShareSheet (url message title : string)
| OpenURL (url : string).

(** The system a handler runs in: the React state of the screen and the
    database file. *)
Record Sys (St : Type) : Type := mkSys {
  react : St;
  database : Sqlite.t
}.
Arguments mkSys {St} react database.
Arguments react {St} s.
Arguments database {St} s.

(** A handler: from the system it starts in to its outcome, the system it
    leaves and the platform calls it made. *)
Definition Act (St A : Type) : Type := Sys St -> Result A * Sys St * list Event.

Definition ret {St A : Type} (a : A) : Act St A := fun s => (Val a, s, []).

Definition bind {St A B : Type} (m : Act St A) (k : A -> Act St B) : Act St B :=
  fun s =>
    match m s with
    | (Val a, s1, t1) =>
        match k a s1 with
        | (r, s2, t2) => (r, s2, t1 ++ t2)
        end
    | (Throw e, s1, t1) => (Throw e, s1, t1)
    end.

(** [try { body } catch (e) { handler }] *)
Definition try_catch {St A : Type} (body : Act St A) (handler : string -> Act St A)
  : Act St A :=
  fun s =>
    match body s with
    | (Val a, s1, t1) => (Val a, s1, t1)
    | (Throw e, s1, t1) =>
        match handler e s1 with
        | (r, s2, t2) => (r, s2, t1 ++ t2)
        end
    end.

Declare Scope act_scope.
Delimit Scope act_scope with act.
Notation "x <- m ;; k" := (bind m (fun x => k))
  (at level 100, m at next level, right associativity) : act_scope.
Notation "m ;; k" := (bind m (fun _ => k))
  (at level 100, right associativity) : act_scope.
Local Open Scope act_scope.

(** The values of the state variables the handler closed over. *)
Definition snapshot {St : Type} : Act St St := fun s => (Val (react s), s, []).

(** A [setX(...)] call, here in its functional form. *)
Definition set_state {St : Type} (f : St -> St) : Act St unit :=
  fun s => (Val tt, mkSys (f (react s)) (database s), []).

(** [await] of a platform call whose answer is [r]. *)
Definition await {St A : Type} (e : Event) (r : Result A) : Act St A :=
  fun s => (r, s, [e]).

(** [Alert.alert(title, message)] and [Alert.alert(title)] *)
Definition alert {St : Type} (title message : string) : Act St unit :=
  await (Alert title (Some message)) (Val tt).

Definition alert1 {St : Type} (title : string) : Act St unit :=
  await (Alert title None) (Val tt).

(** [console.log(...args)] *)
Definition console_log {St : Type} (args : list string) : Act St unit :=
  await (ConsoleLog args) (Val tt).

(** [await db.runAsync(...)]: the statement takes effect unless the call
    throws. *)
Definition runAsync {St : Type} (q : Sqlite.stmt) (r : Result unit) : Act St unit :=
  await (RunAsync q) r ;;
  fun s => (Val tt, mkSys (react s) (Sqlite.exec (database s) q), []).

(** [await db.getAllAsync("SELECT * FROM logs ORDER BY id ASC;")] *)
Definition getAllAsc {St : Type} (r : Result unit) : Act St (list Log.t) :=
  await GetAllAsc r ;;
  fun s => (Val (Sqlite.select_asc (database s)), s, []).

(** [await db.getAllAsync("SELECT * FROM logs ORDER BY id DESC LIMIT 5;")] *)
Definition getAllDescLimit5 {St : Type} (r : Result unit) : Act St (list Log.t) :=
  await GetAllDescLimit5 r ;;
  fun s => (Val (Sqlite.select_desc_limit5 (database s)), s, []).

(** [scheduleDailyNotifications]: [cancel] is what the scheduler answers to the
    cancellation, [schedule hour] what it answers to the request for the
    reminder of that hour; a call that throws ends the loop. *)
Definition scheduleDailyNotifications {St : Type} (cancel : Result unit)
           (schedule : Z -> Result string) : Act St unit :=
  await CancelAllScheduledNotifications cancel ;;
  fold_right (fun hour rest => await (ScheduleNotification hour 0) (schedule hour) ;; rest)
             (ret tt) [9; 15; 21].

(** The outcome of a handler, the system it leaves behind and the calls it
    made. *)
Definition outcome {St A : Type} (m : Act St A) (s : Sys St) : Result A := fst (fst (m s)).
Definition after {St A : Type} (m : Act St A) (s : Sys St) : Sys St := snd (fst (m s)).
Definition calls {St A : Type} (m : Act St A) (s : Sys St) : list Event := snd (m s).

Definition BACKEND_BASE_URL : string := "https://emogo-backend-csj011018.onrender.com".

(** ** [app/_test/_index.js]: save, then upload metadata and video *)

Module Upload.

(** The state variables of [EmogoScreen]; [db] tells whether the state holds
    the database handle or [null]. *)
Record State : Type := mkState {
  db : bool;
  mood : Z;
  hasLocationPermission : bool;
  hasCameraPermission : bool;
  videoUri : option string;
  isRecording : bool;
  logs : list Log.t
}.

(** The initial values given to [useState]. *)
Definition initial : State := mkState false 3 false false None false [].

Definition setDb (v : bool) : Act State unit :=
  set_state (fun st => mkState v (mood st) (hasLocationPermission st)
    (hasCameraPermission st) (videoUri st) (isRecording st) (logs st)).

Definition setMood (v : Z) : Act State unit :=
  set_state (fun st => mkState (db st) v (hasLocationPermission st)
    (hasCameraPermission st) (videoUri st) (isRecording st) (logs st)).

Definition setHasLocationPermission (v : bool) : Act State unit :=
  set_state (fun st => mkState (db st) (mood st) v
    (hasCameraPermission st) (videoUri st) (isRecording st) (logs st)).

Definition setHasCameraPermission (v : bool) : Act State unit :=
  set_state (fun st => mkState (db st) (mood st) (hasLocationPermission st)
    v (videoUri st) (isRecording st) (logs st)).

Definition setVideoUri (v : option string) : Act State unit :=
  set_state (fun st => mkState (db st) (mood st) (hasLocationPermission st)
    (hasCameraPermission st) v (isRecording st) (logs st)).

Definition setIsRecording (v : bool) : Act State unit :=
  set_state (fun st => mkState (db st) (mood st) (hasLocationPermission st)
    (hasCameraPermission st) (videoUri st) v (logs st)).

Definition setLogs (f : list Log.t -> list Log.t) : Act State unit :=
  set_state (fun st => mkState (db st) (mood st) (hasLocationPermission st)
    (hasCameraPermission st) (videoUri st) (isRecording st) (f (logs st))).

(** What the platform answers while the screen mounts. *)
Record InitAnswers : Type := mkInitAnswers {
  open_database : Result unit;
  create_table : Result unit;
  recent_rows : Result unit;
  init_location_permission : Result string;
  init_camera_permission : Result string;
  notification_permission : Result string;
  cancel_notifications : Result unit;
  schedule_notification : Z -> Result string
}.

(** What the platform answers to [getLocationForSave]. *)
Record LocationAnswers : Type := mkLocationAnswers {
  permission : Result string;
  position : Result Coords
}.

(** What the platform answers to [recordOneSecondVlog]. *)
Record RecordAnswers : Type := mkRecordAnswers {
  camera_permission : Result string;
  camera : Result CameraResult
}.

(** What the platform answers to [saveLog]: the clock, the location provider,
    the insert and the two requests (a response carries its HTTP status). *)
Record SaveAnswers : Type := mkSaveAnswers {
  now_iso : string;
  now_ms : Z;
  location : LocationAnswers;
  insert : Result unit;
  metadata : Result Z;
  upload_ms : Z;
  video : Result Z
}.

Section Screen.

(** [Platform.OS] *)
Variable OS : string.

Definition isWeb : bool := String.eqb OS "web".

(** The effect run on mount. *)
Definition init (a : InitAnswers) : Act State unit :=
  (if negb isWeb then
     try_catch
       (await (OpenDatabase "emogo.db") (open_database a) ;;
        await ExecCreateTable (create_table a) ;;
        rows <- getAllDescLimit5 (recent_rows a) ;;
        setDb true ;;
        setLogs (fun _ => rows))
       (fun e => console_log ["SQLite init error:"; e])
   else console_log ["Running on web: use in-memory logs only."]) ;;
  if negb isWeb then
    locPerm <- await RequestLocationPermission (init_location_permission a) ;;
    setHasLocationPermission (String.eqb locPerm "granted") ;;
    camPerm <- await RequestCameraPermission (init_camera_permission a) ;;
    setHasCameraPermission (String.eqb camPerm "granted") ;;
    notiPerm <- await RequestNotificationPermission (notification_permission a) ;;
    if String.eqb notiPerm "granted"
    then scheduleDailyNotifications (cancel_notifications a)
                                    (schedule_notification a)
    else ret tt
  else ret tt.

(** [getLocationForSave]: the coordinates to save with, or [null]. *)
Definition getLocationForSave (a : LocationAnswers) : Act State (option Coords) :=
  st <- snapshot ;;
  try_catch
    (if isWeb then ret (Some (mkCoords 25.033968 121.564468))
     else
       granted <-
         (if negb (hasLocationPermission st) then
            perm <- await RequestLocationPermission (permission a) ;;
            let granted := String.eqb perm "granted" in
            setHasLocationPermission granted ;;
            ret granted
          else ret true) ;;
       if negb granted then
         alert "需要位置權限" "請到設定開啟位置權限才能儲存紀錄。" ;;
         ret None
       else
         loc <- await GetCurrentPosition (position a) ;;
         ret (Some (mkCoords (c_lat loc) (c_lng loc))))
    (fun e =>
       console_log ["getLocationForSave error:"; e] ;;
       alert "取得 GPS 失敗" "請稍後再試。" ;;
       ret None).

(** [recordOneSecondVlog] *)
Definition recordOneSecondVlog (a : RecordAnswers) : Act State unit :=
  if isWeb then alert "Web 模式" "瀏覽器無法錄製 vlog，請在手機上測試。"
  else
    camPerm <- await RequestCameraPermission (camera_permission a) ;;
    if negb (String.eqb camPerm "granted") then
      alert "需要相機權限" "若要錄製 vlog，請允許相機權限。"
    else
      setHasCameraPermission true ;;
      try_catch
        (setIsRecording true ;;
         result <- await LaunchCamera (camera a) ;;
         match canceled result, assets result with
         | false, Some (uri :: _) =>
             setVideoUri (Some uri) ;;
             alert "錄製完成" "已錄製 1 秒 vlog！"
         | _, _ => console_log ["User canceled camera"]
         end)
        (fun e =>
           console_log ["record error:"; e] ;;
           alert "錄影失敗" "請再試一次") ;;
      setIsRecording false.

(** The object [newLog] of [saveLog]. *)
Definition newLog (a : SaveAnswers) (st : State) (loc : Coords) : Log.t :=
  Log.mk (now_ms a) (now_iso a) (mood st) (or_empty (videoUri st))
         (c_lat loc) (c_lng loc).

(** The body of the metadata request. *)
Definition metadata_body (a : SaveAnswers) (st : State) (loc : Coords) : string :=
  Js.JSON_stringify (Js.JObj
    [ ("timestamp", Js.JStr (now_iso a));
      ("mood", Js.JInt (mood st));
      ("videoUri", Js.JStr (or_empty (videoUri st)));
      ("lat", Js.JNum (c_lat loc));
      ("lng", Js.JNum (c_lng loc)) ]).

(** The [FormData] of the video request. *)
Definition video_form (a : SaveAnswers) (st : State) (loc : Coords)
  : list (string * FormValue) :=
  [ ("timestamp", FormText (now_iso a));
    ("mood", FormText (Js.Z_toString (mood st)));
    ("lat", FormText (Js.Number_toString (c_lat loc)));
    ("lng", FormText (Js.Number_toString (c_lng loc)));
    ("video", FormFile (videoUri st)
                       ("emogo_vlog_" ++ Js.Z_toString (upload_ms a) ++ ".mp4")%string
                       "video/mp4") ].

(** [saveLog]: local record, SQLite insert, metadata upload, video upload.
    A [return] inside a [catch] shows as the [false] its [try] evaluates to. *)
Definition saveLog (a : SaveAnswers) : Act State unit :=
  st <- snapshot ;;
  if negb (truthy (videoUri st)) then
    alert "請先錄製 vlog" "儲存前請先錄製 1 秒 vlog。"
  else
    loc <- getLocationForSave (location a) ;;
    match loc with
    | None => ret tt
    | Some loc =>
        setLogs (push_recent (newLog a st loc)) ;;
        (if negb isWeb && db st then
           try_catch
             (runAsync (Sqlite.Insert (now_iso a) (mood st) (or_empty (videoUri st))
                                      (c_lat loc) (c_lng loc))
                       (insert a))
             (fun e => console_log ["Insert error:"; e])
         else ret tt) ;;
        sent <-
          try_catch
            (await (FetchJson (BACKEND_BASE_URL ++ "/api/logs")%string
                              (metadata_body a st loc))
                   (metadata a) ;;
             ret true)
            (fun e =>
               console_log ["Upload metadata error:"; e] ;;
               alert "上傳資料失敗" "無法上傳情緒 / GPS 資料到後端。" ;;
               ret false) ;;
        if negb sent then ret tt
        else
          uploaded <-
            try_catch
              (await (FetchForm (BACKEND_BASE_URL ++ "/api/upload-video")%string
                                (video_form a st loc))
                     (video a) ;;
               ret true)
              (fun e =>
                 console_log ["Upload video error:"; e] ;;
                 alert "上傳影片失敗" "情緒與 GPS 已上傳，但影片上傳失敗。" ;;
                 ret false) ;;
          if negb uploaded then ret tt
          else alert "已儲存並上傳" "這次的心情、GPS 與 vlog 影片已上傳到後端。"
    end.

(** [clearLogs] *)
Definition clearLogs (delete : Result unit) : Act State unit :=
  st <- snapshot ;;
  cleared <-
    (if negb isWeb && db st then
       try_catch
         (runAsync Sqlite.DeleteAll delete ;;
          ret true)
         (fun e =>
            console_log ["clear error:"; e] ;;
            alert "清除失敗" "請查看 console log。" ;;
            ret false)
     else ret true) ;;
  if negb cleared then ret tt
  else
    setLogs (fun _ => []) ;;
    setVideoUri None ;;
    alert "已清除" "所有紀錄已清除。".

(** [shareVideo]: [share] is what the share sheet answers, [message] the
    [message] of what it throws, if that has one. *)
Definition shareVideo (uri : option string) (share : Result unit) (message : option string)
  : Act State unit :=
  try_catch
    (if negb (truthy uri) then alert1 "此紀錄沒有影片"
     else await (ShareSheet (or_empty uri) "Emogo 影片紀錄" "Emogo VLOG") share)
    (fun e => alert "影片分享失敗"
                    match message with
                    | Some m => m
                    | None => "未知錯誤"
                    end).

(** The values the mood buttons are rendered for. *)
Definition moodButtons : list Z := [1; 2; 3; 4; 5].

(** What the user and the system can do to the screen: launch the app (the
    component mounts with its initial state and runs its effect) and press
    its buttons, the [i]-th mood button among them. *)
Inductive Action : Type :=
| Launch (a : InitAnswers)
| PressMood (i : nat)
| PressRecord (a : RecordAnswers)
| PressSave (a : SaveAnswers)
| PressClear (delete : Result unit).

Definition handler (act : Action) : Act State unit :=
  match act with
  | Launch a => set_state (fun _ => initial) ;; init a
  | PressMood i =>
      match nth_error moodButtons i with
      | Some value => setMood value
      | None => ret tt
      end
  | PressRecord a => recordOneSecondVlog a
  | PressSave a => saveLog a
  | PressClear delete => clearLogs delete
  end.

(** The system after a sequence of actions, each handler run to its end before
    the next starts. *)
Definition run (acts : list Action) (s : Sys State) : Sys State :=
  fold_left (fun s act => after (handler act) s) acts s.

End Screen.

(** A fresh install: nothing mounted yet, no database file. *)
Definition fresh_install : Sys State := mkSys initial Sqlite.empty.

End Upload.

(** ** The variant that exports the records as a JSON file *)

Module FileExport.

Record State : Type := mkState {
  db : bool;
  mood : Z;
  location : option Coords;
  hasLocationPermission : bool;
  hasCameraPermission : bool;
  videoUri : option string;
  isRecording : bool;
  logs : list Log.t
}.

Definition initial : State := mkState false 3 None false false None false [].

Definition setDb (v : bool) : Act State unit :=
  set_state (fun st => mkState v (mood st) (location st) (hasLocationPermission st)
    (hasCameraPermission st) (videoUri st) (isRecording st) (logs st)).

Definition setMood (v : Z) : Act State unit :=
  set_state (fun st => mkState (db st) v (location st) (hasLocationPermission st)
    (hasCameraPermission st) (videoUri st) (isRecording st) (logs st)).

Definition setLocation (v : option Coords) : Act State unit :=
  set_state (fun st => mkState (db st) (mood st) v (hasLocationPermission st)
    (hasCameraPermission st) (videoUri st) (isRecording st) (logs st)).

Definition setHasLocationPermission (v : bool) : Act State unit :=
  set_state (fun st => mkState (db st) (mood st) (location st) v
    (hasCameraPermission st) (videoUri st) (isRecording st) (logs st)).

Definition setHasCameraPermission (v : bool) : Act State unit :=
  set_state (fun st => mkState (db st) (mood st) (location st) (hasLocationPermission st)
    v (videoUri st) (isRecording st) (logs st)).

Definition setVideoUri (v : option string) : Act State unit :=
  set_state (fun st => mkState (db st) (mood st) (location st) (hasLocationPermission st)
    (hasCameraPermission st) v (isRecording st) (logs st)).

Definition setIsRecording (v : bool) : Act State unit :=
  set_state (fun st => mkState (db st) (mood st) (location st) (hasLocationPermission st)
    (hasCameraPermission st) (videoUri st) v (logs st)).

Definition setLogs (f : list Log.t -> list Log.t) : Act State unit :=
  set_state (fun st => mkState (db st) (mood st) (location st) (hasLocationPermission st)
    (hasCameraPermission st) (videoUri st) (isRecording st) (f (logs st))).

(** What the platform answers to [getCurrentLocation]. *)
Record LocationAnswers : Type := mkLocationAnswers {
  permission : Result string;
  position : Result Coords
}.

(** What the platform answers to [saveLog]. *)
Record SaveAnswers : Type := mkSaveAnswers {
  now_iso : string;
  now_ms : Z;
  insert : Result unit
}.

(** What the platform answers to [exportLogsAsJson]: the query, the clock,
    [FileSystem.documentDirectory], the file write and the share sheet; and,
    of what one of them throws, its [message], if it has one, and what
    [JSON.stringify] makes of it. *)
Record ExportAnswers : Type := mkExportAnswers {
  all_rows : Result unit;
  exported_at : string;
  documentDirectory : option string;
  file_ms : Z;
  write : Result unit;
  share : Result unit;
  error_message : option string;
  error_json : string
}.

Section Screen.

Variable OS : string.

Definition isWeb : bool := String.eqb OS "web".

(** The effect run on mount. *)
Definition init (a : Upload.InitAnswers) : Act State unit :=
  (if negb isWeb then
     try_catch
       (await (OpenDatabase "emogo.db") (Upload.open_database a) ;;
        await ExecCreateTable (Upload.create_table a) ;;
        rows <- getAllDescLimit5 (Upload.recent_rows a) ;;
        setDb true ;;
        setLogs (fun _ => rows))
       (fun e => console_log ["SQLite init error:"; e])
   else console_log ["Running on web: use in-memory logs only."]) ;;
  if negb isWeb then
    locPerm <- await RequestLocationPermission (Upload.init_location_permission a) ;;
    setHasLocationPermission (String.eqb locPerm "granted") ;;
    camPerm <- await RequestCameraPermission (Upload.init_camera_permission a) ;;
    setHasCameraPermission (String.eqb camPerm "granted") ;;
    notiPerm <- await RequestNotificationPermission (Upload.notification_permission a) ;;
    if String.eqb notiPerm "granted"
    then scheduleDailyNotifications (Upload.cancel_notifications a)
                                    (Upload.schedule_notification a)
    else ret tt
  else ret tt.

(** [getCurrentLocation] *)
Definition getCurrentLocation (a : LocationAnswers) : Act State unit :=
  st <- snapshot ;;
  if isWeb then
    let fakeLoc := mkCoords 25.033968 121.564468 in
    setLocation (Some fakeLoc) ;;
    alert "Web 模式"
          ("使用示意 GPS：" ++ Js.toFixed 5 (c_lat fakeLoc) ++ ", "
           ++ Js.toFixed 5 (c_lng fakeLoc))%string
  else
    proceed <-
      (if negb (hasLocationPermission st) then
         perm <- await RequestLocationPermission (permission a) ;;
         if negb (String.eqb perm "granted") then
           alert "需要位置權限" "請到設定開啟位置權限" ;;
           ret false
         else
           setHasLocationPermission true ;;
           ret true
       else ret true) ;;
    if negb proceed then ret tt
    else
      loc <- await GetCurrentPosition (position a) ;;
      let pos := mkCoords (c_lat loc) (c_lng loc) in
      setLocation (Some pos) ;;
      alert "已取得 GPS"
            (Js.toFixed 5 (c_lat pos) ++ ", " ++ Js.toFixed 5 (c_lng pos))%string.

(** [recordOneSecondVlog] *)
Definition recordOneSecondVlog (a : Upload.RecordAnswers) : Act State unit :=
  if isWeb then alert "Web 模式" "瀏覽器無法錄製 vlog，請在手機上測試。"
  else
    camPerm <- await RequestCameraPermission (Upload.camera_permission a) ;;
    if negb (String.eqb camPerm "granted") then
      alert "需要相機權限" "若要錄製 vlog，請允許相機權限。"
    else
      setHasCameraPermission true ;;
      try_catch
        (setIsRecording true ;;
         result <- await LaunchCamera (Upload.camera a) ;;
         match canceled result, assets result with
         | false, Some (uri :: _) =>
             setVideoUri (Some uri) ;;
             alert "錄製完成" "已錄製 1 秒 vlog！"
         | _, _ => console_log ["User canceled camera"]
         end)
        (fun e =>
           console_log ["record error:"; e] ;;
           alert "錄影失敗" "請再試一次") ;;
      setIsRecording false.

Definition newLog (a : SaveAnswers) (st : State) (loc : Coords) : Log.t :=
  Log.mk (now_ms a) (now_iso a) (mood st) (or_empty (videoUri st))
         (c_lat loc) (c_lng loc).

(** [saveLog] *)
Definition saveLog (a : SaveAnswers) : Act State unit :=
  st <- snapshot ;;
  match location st with
  | None => alert1 "請先取得 GPS"
  | Some loc =>
      setLogs (push_recent (newLog a st loc)) ;;
      if negb isWeb && db st then
        try_catch
          (runAsync (Sqlite.Insert (now_iso a) (mood st) (or_empty (videoUri st))
                                   (c_lat loc) (c_lng loc))
                    (insert a) ;;
           alert "已儲存" "這次的情緒、vlog 與 GPS 已存入 SQLite。")
          (fun e =>
             console_log ["Insert error:"; e] ;;
             alert "儲存失敗" "請查看 console log。")
      else if isWeb then
        alert "Web 模式"
              "已把這次紀錄加入畫面下方的清單（實際 SQLite 儲存只在手機 App 上）。"
      else ret tt
  end.

(** The records [exportLogsAsJson] exports: [allLogs]. *)
Definition allLogs (r : Result unit) : Act State (list Log.t) :=
  st <- snapshot ;;
  if negb isWeb && db st then getAllAsc r
  else ret (rev (logs st)).

(** One element of [payload.records]. *)
Definition record_json (row : Log.t) : Js.json :=
  Js.JObj
    [ ("timestamp", Js.JStr (Log.timestamp row));
      ("mood", Js.JInt (Log.mood row));
      ("videoUri", Js.JStr (or_empty (Some (Log.videoUri row))));
      ("lat", Js.JNum (Log.lat row));
      ("lng", Js.JNum (Log.lng row)) ].

(** The object [payload]. *)
Definition payload (exportedAt : string) (all : list Log.t) : Js.json :=
  Js.JObj
    [ ("exportedAt", Js.JStr exportedAt);
      ("device", Js.JStr OS);
      ("count", Js.JInt (Z.of_nat (List.length all)));
      ("records", Js.JArr (map record_json all)) ].

(** [exportLogsAsJson] *)
Definition exportLogsAsJson (a : ExportAnswers) : Act State unit :=
  try_catch
    (all <- allLogs (all_rows a) ;;
     match all with
     | [] => alert1 "目前沒有任何紀錄可匯出。"
     | _ =>
         let jsonString := Js.JSON_stringify_2 (payload (exported_at a) all) in
         if isWeb || negb (truthy (documentDirectory a)) then
           console_log [jsonString] ;;
           alert "Web / 不支援檔案模式"
                 "已在 console 印出 JSON 內容，請從開發者工具複製。"
         else
           let fileUri :=
             (or_empty (documentDirectory a) ++ "emogo_logs_"
              ++ Js.Z_toString (file_ms a) ++ ".json")%string in
           await (WriteFile fileUri jsonString) (write a) ;;
           await (ShareSheet fileUri
                    ("Emogo JSON 匯出，共 " ++ Js.Z_toString (Z.of_nat (List.length all))
                     ++ " 筆紀錄")%string
                    "Emogo 日誌 JSON 匯出")
                 (share a)
     end)
    (fun e =>
       console_log ["export json error:"; e] ;;
       alert "匯出失敗"
             ("產生 JSON 發生錯誤："
              ++ match error_message a with
                 | Some m => m
                 | None => error_json a
                 end)%string).

(** [clearLogs] *)
Definition clearLogs (delete : Result unit) : Act State unit :=
  st <- snapshot ;;
  cleared <-
    (if negb isWeb && db st then
       try_catch
         (runAsync Sqlite.DeleteAll delete ;;
          ret true)
         (fun e =>
            console_log ["clear error:"; e] ;;
            alert "清除失敗" "請查看 console log。" ;;
            ret false)
     else ret true) ;;
  if negb cleared then ret tt
  else
    setLogs (fun _ => []) ;;
    setVideoUri None ;;
    setLocation None ;;
    alert "已清除" "所有紀錄已清除。".

(** [shareVideo]: [share] is what the share sheet answers, [message] the
    [message] of what it throws, if that has one. *)
Definition shareVideo (uri : option string) (share : Result unit) (message : option string)
  : Act State unit :=
  try_catch
    (if negb (truthy uri) then alert1 "此紀錄沒有影片"
     else await (ShareSheet (or_empty uri) "Emogo 影片紀錄" "Emogo VLOG") share)
    (fun e => alert "影片分享失敗"
                    match message with
                    | Some m => m
                    | None => "未知錯誤"
                    end).

(** The values the mood buttons are rendered for. *)
Definition moodButtons : list Z := [1; 2; 3; 4; 5].

Inductive Action : Type :=
| Launch (a : Upload.InitAnswers)
| PressMood (i : nat)
| PressRecord (a : Upload.RecordAnswers)
| PressLocate (a : LocationAnswers)
| PressSave (a : SaveAnswers)
| PressExport (a : ExportAnswers)
| PressClear (delete : Result unit).

Definition handler (act : Action) : Act State unit :=
  match act with
  | Launch a => set_state (fun _ => initial) ;; init a
  | PressMood i =>
      match nth_error moodButtons i with
      | Some value => setMood value
      | None => ret tt
      end
  | PressRecord a => recordOneSecondVlog a
  | PressLocate a => getCurrentLocation a
  | PressSave a => saveLog a
  | PressExport a => exportLogsAsJson a
  | PressClear delete => clearLogs delete
  end.

Definition run (acts : list Action) (s : Sys State) : Sys State :=
  fold_left (fun s act => after (handler act) s) acts s.

End Screen.

Definition fresh_install : Sys State := mkSys initial Sqlite.empty.

(** Reading an exported document back: the member of an object, the count
    and the records of a payload. *)
Fixpoint member (key : string) (members : list (string * Js.json)) : option Js.json :=
  match members with
  | [] => None
  | (k, v) :: rest => if String.eqb k key then Some v else member key rest
  end.

Definition read_record (j : Js.json) : option (string * Z * string * float * float) :=
  match j with
  | Js.JObj ms =>
      match member "timestamp" ms, member "mood" ms, member "videoUri" ms,
            member "lat" ms, member "lng" ms with
      | Some (Js.JStr ts), Some (Js.JInt m), Some (Js.JStr v),
        Some (Js.JNum la), Some (Js.JNum lo) => Some (ts, m, v, la, lo)
      | _, _, _, _, _ => None
      end
  | _ => None
  end.

Fixpoint read_all (js : list Js.json) : option (list (string * Z * string * float * float)) :=
  match js with
  | [] => Some []
  | j :: rest =>
      match read_record j, read_all rest with
      | Some r, Some rs => Some (r :: rs)
      | _, _ => None
      end
  end.

Definition read_records (doc : Js.json) : option (list (string * Z * string * float * float)) :=
  match doc with
  | Js.JObj ms =>
      match member "records" ms with
      | Some (Js.JArr items) => read_all items
      | _ => None
      end
  | _ => None
  end.

Definition read_count (doc : Js.json) : option Z :=
  match doc with
  | Js.JObj ms =>
      match member "count" ms with
      | Some (Js.JInt n) => Some n
      | _ => None
      end
  | _ => None
  end.

Definition read_exportedAt (doc : Js.json) : option string :=
  match doc with
  | Js.JObj ms =>
      match member "exportedAt" ms with
      | Some (Js.JStr t) => Some t
      | _ => None
      end
  | _ => None
  end.








End FileExport.

(** ** The variant that opens the exported JSON in a browser page *)

Module BrowserExport.

Record State : Type := mkState {
  db : bool;
  mood : Z;
  location : option Coords;
  hasLocationPermission : bool;
  videoUri : option string;
  logs : list Log.t
}.

Definition initial : State := mkState false 3 None false None [].

Definition setDb (v : bool) : Act State unit :=
  set_state (fun st => mkState v (mood st) (location st) (hasLocationPermission st)
    (videoUri st) (logs st)).

Definition setMood (v : Z) : Act State unit :=
  set_state (fun st => mkState (db st) v (location st) (hasLocationPermission st)
    (videoUri st) (logs st)).

Definition setLocation (v : option Coords) : Act State unit :=
  set_state (fun st => mkState (db st) (mood st) v (hasLocationPermission st)
    (videoUri st) (logs st)).

Definition setHasLocationPermission (v : bool) : Act State unit :=
  set_state (fun st => mkState (db st) (mood st) (location st) v
    (videoUri st) (logs st)).

Definition setVideoUri (v : option string) : Act State unit :=
  set_state (fun st => mkState (db st) (mood st) (location st) (hasLocationPermission st)
    v (logs st)).

Definition setLogs (f : list Log.t -> list Log.t) : Act State unit :=
  set_state (fun st => mkState (db st) (mood st) (location st) (hasLocationPermission st)
    (videoUri st) (f (logs st))).

(** [toBase64]: strings are kept as their UTF-8 bytes, which is what
    [unescape(encodeURIComponent(text))] hands to [btoa]. *)
Definition toBase64 (text : string) : string := Js.btoa text.

Fixpoint escape_angle (s : string) : string :=
  match s with
  | EmptyString => EmptyString
  | String c s' =>
      if Ascii.eqb c "<" then ("&lt;" ++ escape_angle s')%string
      else if Ascii.eqb c ">" then ("&gt;" ++ escape_angle s')%string
      else String c (escape_angle s')
  end.

Definition dquote : string := String (ascii_of_N 34) EmptyString.

(** [openJsonInBrowser]: [open] is what [Linking.openURL] answers, [message]
    the [message] of what it throws, if that has one. *)
Definition openJsonInBrowser (open : Result unit) (message : option string)
           (jsonString : string) : Act State unit :=
  try_catch
    (let escaped := escape_angle jsonString in
     let html :=
       Js.join Js.newline
         [ "";
           "      <html>";
           "        <head>";
           ("          <meta charset=" ++ dquote ++ "UTF-8" ++ dquote ++ " />")%string;
           "          <title>Emogo Export</title>";
           "        </head>";
           "        <body>";
           "          <h2>Emogo 匯出紀錄</h2>";
           ("          <pre>" ++ escaped ++ "</pre>")%string;
           "        </body>";
           "      </html>";
           "    " ] in
     let base64 := toBase64 html in
     let url := ("data:text/html;base64," ++ base64)%string in
     await (OpenURL url) open)
    (fun _ => await (Alert "匯出失敗" message) (Val tt)).

(** What the platform answers while the screen mounts. *)
Record InitAnswers : Type := mkInitAnswers {
  open_database : Result unit;
  create_table : Result unit;
  recent_rows : Result unit;
  location_permission : Result string;
  notification_permission : Result string;
  cancel_notifications : Result unit;
  schedule_notification : Z -> Result string
}.

Record SaveAnswers : Type := mkSaveAnswers {
  now_iso : string;
  now_ms : Z;
  insert : Result unit
}.

Record ExportAnswers : Type := mkExportAnswers {
  all_rows : Result unit;
  exported_at : string;
  open_url : Result unit;
  open_error_message : option string
}.

Section Screen.

Variable OS : string.

Definition isWeb : bool := String.eqb OS "web".

(** The effect run on mount.  The reminders are scheduled without [await]:
    what the scheduler throws does not reach the effect. *)
Definition init (a : InitAnswers) : Act State unit :=
  (if negb isWeb then
     await (OpenDatabase "emogo.db") (open_database a) ;;
     await ExecCreateTable (create_table a) ;;
     rows <- getAllDescLimit5 (recent_rows a) ;;
     setDb true ;;
     setLogs (fun _ => rows)
   else ret tt) ;;
  loc <- await RequestLocationPermission (location_permission a) ;;
  setHasLocationPermission (String.eqb loc "granted") ;;
  noti <- await RequestNotificationPermission (notification_permission a) ;;
  if String.eqb noti "granted"
  then try_catch (scheduleDailyNotifications (cancel_notifications a)
                                             (schedule_notification a))
                 (fun _ => ret tt)
  else ret tt.

(** [getCurrentLocation] *)
Definition getCurrentLocation (position : Result Coords) : Act State unit :=
  st <- snapshot ;;
  if negb (hasLocationPermission st) then alert "錯誤" "請允許 GPS 權限"
  else
    loc <- await GetCurrentPosition position ;;
    let pos := mkCoords (c_lat loc) (c_lng loc) in
    setLocation (Some pos) ;;
    alert "已取得位置"
          (Js.Number_toString (c_lat pos) ++ ", " ++ Js.Number_toString (c_lng pos))%string.

(** [recordOneSecondVlog] *)
Definition recordOneSecondVlog (cam : Result string) (camera : Result CameraResult)
  : Act State unit :=
  status <- await RequestCameraPermission cam ;;
  if negb (String.eqb status "granted") then alert1 "請啟用相機權限"
  else
    result <- await LaunchCamera camera ;;
    if canceled result then ret tt
    else
      match assets result with
      | None => fun s => (Throw "TypeError", s, [])
      | Some [] => ret tt
      | Some (uri :: _) =>
          setVideoUri (Some uri) ;;
          alert1 "錄影完成"
      end.

Definition newLog (a : SaveAnswers) (st : State) (loc : Coords) : Log.t :=
  Log.mk (now_ms a) (now_iso a) (mood st) (or_empty (videoUri st))
         (c_lat loc) (c_lng loc).

(** [saveLog] *)
Definition saveLog (a : SaveAnswers) : Act State unit :=
  st <- snapshot ;;
  match location st with
  | None => alert1 "請先取得 GPS"
  | Some loc =>
      setLogs (push_recent (newLog a st loc)) ;;
      if db st then
        runAsync (Sqlite.Insert (now_iso a) (mood st) (or_empty (videoUri st))
                                (c_lat loc) (c_lng loc))
                 (insert a) ;;
        alert1 "已儲存"
      else ret tt
  end.

(** The records [exportLogsAsJson] exports: [allLogs]. *)
Definition allLogs (r : Result unit) : Act State (list Log.t) :=
  st <- snapshot ;;
  if db st then getAllAsc r
  else ret (rev (logs st)).

(** A row as it is, with its [id]. *)
Definition row_json (row : Log.t) : Js.json :=
  Js.JObj
    [ ("id", Js.JInt (Log.id row));
      ("timestamp", Js.JStr (Log.timestamp row));
      ("mood", Js.JInt (Log.mood row));
      ("videoUri", Js.JStr (Log.videoUri row));
      ("lat", Js.JNum (Log.lat row));
      ("lng", Js.JNum (Log.lng row)) ].

(** [exportLogsAsJson]; [openJsonInBrowser] is not awaited and catches its own
    exceptions. *)
Definition exportLogsAsJson (a : ExportAnswers) : Act State unit :=
  all <- allLogs (all_rows a) ;;
  match all with
  | [] => alert1 "目前沒有紀錄可匯出"
  | _ =>
      let jsonStr :=
        Js.JSON_stringify_2 (Js.JObj
          [ ("exportedAt", Js.JStr (exported_at a));
            ("device", Js.JStr OS);
            ("count", Js.JInt (Z.of_nat (List.length all)));
            ("records", Js.JArr (map row_json all)) ]) in
      openJsonInBrowser (open_url a) (open_error_message a) jsonStr
  end.

(** [clearLogs] *)
Definition clearLogs (delete : Result unit) : Act State unit :=
  st <- snapshot ;;
  (if db st then runAsync Sqlite.DeleteAll delete else ret tt) ;;
  setLogs (fun _ => []) ;;
  setLocation None ;;
  setVideoUri None ;;
  alert1 "已清除所有紀錄".

End Screen.
End BrowserExport.

(** ** Vocabulary of the properties *)

(** The three steps of a save that reach outside the screen: the insert into
    the local table, the metadata request and the video request. *)
Inductive Leg : Type := LocalAppend | MetadataLeg | MediaLeg.

Definition leg_of (e : Event) : option Leg :=
  match e with
  | RunAsync (Sqlite.Insert _ _ _ _ _) => Some LocalAppend
  | FetchJson _ _ => Some MetadataLeg
  | FetchForm _ _ => Some MediaLeg
  | _ => None
  end.

(** The legs attempted in a sequence of calls, in order. *)
Fixpoint legs (t : list Event) : list Leg :=
  match t with
  | [] => []
  | e :: t' =>
      match leg_of e with
      | Some l => l :: legs t'
      | None => legs t'
      end
  end.

Definition leg_rank (l : Leg) : Z :=
  match l with
  | LocalAppend => 0
  | MetadataLeg => 1
  | MediaLeg => 2
  end.

Definition leg_before (a b : Leg) : Prop := leg_rank a < leg_rank b.

(** The text of the document an export printed or wrote, if it did. *)
Fixpoint exported_text (t : list Event) : option string :=
  match t with
  | [] => None
  | WriteFile _ content :: _ => Some content
  | ConsoleLog [content] :: _ => Some content
  | _ :: t' => exported_text t'
  end.

(** A mood on the scale of the screen. *)
Definition valid_mood (m : Z) : Prop := 1 <= m <= 5.

(** What a save leaves in the table: the insert, when the screen runs on a
    device with its database open and the insert does not throw. *)
Definition table_after_save (OS : string) (a : Upload.SaveAnswers) (st : Upload.State)
           (loc : Coords) (d : Sqlite.t) : Sqlite.t :=
  if negb (Upload.isWeb OS) && Upload.db st then
    match Upload.insert a with
    | Val _ =>
        Sqlite.insert (Upload.now_iso a) (Upload.mood st) (or_empty (Upload.videoUri st))
                      (c_lat loc) (c_lng loc) d
    | Throw _ => d
    end
  else d.

(** The record a save shows and stores, if it gets that far: it needs the
    video and the coordinates. *)
Definition saved_record (OS : string) (a : Upload.SaveAnswers) (s : Sys Upload.State)
  : option Log.t :=
  if truthy (Upload.videoUri (react s)) then
    match outcome (Upload.getLocationForSave OS (Upload.location a)) s with
    | Val (Some loc) => Some (Upload.newLog a (react s) loc)
    | _ => None
    end
  else None.

(** The records a sequence of saves appends, oldest first. *)
Fixpoint records_saved (OS : string) (saves : list Upload.SaveAnswers)
         (s : Sys Upload.State) : list Log.t :=
  match saves with
  | [] => []
  | a :: rest =>
      match saved_record OS a s with
      | Some r => r :: records_saved OS rest (after (Upload.saveLog OS a) s)
      | None => records_saved OS rest (after (Upload.saveLog OS a) s)
      end
  end.

(** Records whose moods are all on the scale. *)
Definition on_scale (l : list Log.t) : Prop := Forall (fun r => valid_mood (Log.mood r)) l.

(** What holds of the screen at all times: every mood it holds, shows or has
    stored is on the scale, the recent view has at most five entries, and the
    table is well formed. *)
Definition screen_invariant (s : Sys Upload.State) : Prop :=
  valid_mood (Upload.mood (react s))
  /\ on_scale (Upload.logs (react s))
  /\ on_scale (Sqlite.rows (database s))
  /\ (List.length (Upload.logs (react s)) <= 5)%nat
  /\ Sqlite.wf (database s).

(** The calls that go to the database. *)
Definition is_sql (e : Event) : bool :=
  match e with
  | OpenDatabase _ | ExecCreateTable | RunAsync _ | GetAllAsc | GetAllDescLimit5 => true
  | _ => false
  end.

(** The calls that go to the notification scheduler. *)
Definition is_notification (e : Event) : bool :=
  match e with
  | CancelAllScheduledNotifications | ScheduleNotification _ _ => true
  | _ => false
  end.

(** Whether an awaited permission request came back granted. *)
Definition granted (r : Result string) : bool :=
  match r with
  | Val status => String.eqb status "granted"
  | Throw _ => false
  end.

(** A string without angle brackets. *)
Fixpoint no_angle (s : string) : bool :=
  match s with
  | EmptyString => true
  | String c s' => negb (Ascii.eqb c "<") && negb (Ascii.eqb c ">") && no_angle s'
  end.

(** ** Reading a document back *)


(** A text that opens with the first character of a value. *)
Definition starts_value (text : string) : Prop :=
  match text with
  | String c _ => Js.is_space c = false
  | EmptyString => False
  end.


(** The text of a member of an object. *)
Definition member_text (k text : string) : string := (Js.quote k ++ ": " ++ text)%string.

(** What a coordinate reads back as: the number its JSON text denotes. *)
Definition reads_back (x : float) : Prop := Js.decode_number (Js.JSON_number x) = Some x.





(** The text of an exported document up to the value of [exportedAt], and
    its text from there on. *)
Definition document_head : string :=
  ("{" ++ Js.newline ++ "  " ++ Js.quote "exportedAt" ++ ": ")%string.

Definition document_tail (OS : string) (all : list Log.t) : string :=
  ("," ++ Js.newline ++ "  "
   ++ Js.join ("," ++ Js.newline ++ "  ")
        [ member_text "device" (Js.quote OS);
          member_text "count" (Js.Z_toString (Z.of_nat (List.length all)));
          member_text "records"
            (Js.serialize "  " "  " (Js.JArr (map FileExport.record_json all))) ]
   ++ Js.newline ++ "}")%string.

(** The actions that mount the screen anew. *)
Definition is_launch (act : Upload.Action) : bool :=
  match act with
  | Upload.Launch _ => true
  | _ => false
  end.

(** ** Scenarios *)

Module Scenario.

Definition taipei : Coords := mkCoords 25.033968 121.564468.

Definition init_ok : Upload.InitAnswers :=
  Upload.mkInitAnswers (Val tt) (Val tt) (Val tt)
                       (Val "granted") (Val "granted") (Val "denied")
                       (Val tt) (fun _ => Val "reminder").

Definition clip : Upload.RecordAnswers :=
  Upload.mkRecordAnswers (Val "granted")
                         (Val (mkCameraResult false (Some ["clip1.mp4"]))).

Definition gps_ok : Upload.LocationAnswers :=
  Upload.mkLocationAnswers (Val "granted") (Val taipei).

Definition gps_denied : Upload.LocationAnswers :=
  Upload.mkLocationAnswers (Val "denied") (Throw "Location unavailable").

(** A save at noon, given what the insert and the two requests answer. *)
Definition save (ins : Result unit) (meta vid : Result Z) : Upload.SaveAnswers :=
  Upload.mkSaveAnswers "2025-01-01T12:00:00.000Z" 1735732800000 gps_ok
                       ins meta 1735732800250 vid.

(** On a phone: launched, mood 4 chosen, nothing recorded yet. *)
Definition drafted : Sys Upload.State :=
  Upload.run "ios" [Upload.Launch init_ok; Upload.PressMood 3] Upload.fresh_install.

(** The same with the clip recorded. *)
Definition recorded : Sys Upload.State :=
  Upload.run "ios" [Upload.PressRecord clip] drafted.

(** The same after a first save that went through. *)
Definition saved_once : Sys Upload.State :=
  Upload.run "ios" [Upload.PressSave (save (Val tt) (Val 200) (Val 200))] recorded.

(** A second save, an hour later, whose insert throws. *)
Definition save_disk_full : Upload.SaveAnswers :=
  Upload.mkSaveAnswers "2025-01-01T13:00:00.000Z" 1735736400000 gps_ok
                       (Throw "disk full") (Val 200) 1735736400250 (Val 200).

(** On the web: the demonstration location taken, then six saves a minute
    apart. *)
Definition web_save (minute : string) (ms : Z) : FileExport.SaveAnswers :=
  FileExport.mkSaveAnswers ("2025-01-01T12:0" ++ minute ++ ":00.000Z")%string ms (Val tt).

Definition six_saves : list FileExport.SaveAnswers :=
  [ web_save "1" 1735732860000; web_save "2" 1735732920000;
    web_save "3" 1735732980000; web_save "4" 1735733040000;
    web_save "5" 1735733100000; web_save "6" 1735733160000 ].

Definition web_after_six : Sys FileExport.State :=
  FileExport.run "web"
    (FileExport.PressLocate (FileExport.mkLocationAnswers (Val "granted") (Val taipei))
     :: map FileExport.PressSave six_saves)
    FileExport.fresh_install.

(** An export at the given instant, everything else going well. *)
Definition export_at (instant : string) : FileExport.ExportAnswers :=
  FileExport.mkExportAnswers (Val tt) instant (Some "file:///documents/")
                             1735733200000 (Val tt) (Val tt) None "{}".

(** On a phone with one record in the table. *)
Definition one_record : Sys FileExport.State :=
  mkSys (FileExport.mkState true 4 (Some taipei) true true (Some "clip1.mp4") false [])
        (Sqlite.insert "2025-01-01T12:00:00.000Z" 4 "clip1.mp4"
                       25.033968 121.564468 Sqlite.empty).


End Scenario.

(** * Properties *)

(** ** The table *)

Section TableFacts.

Lemma insert_by_id_front (r : Log.t) (l : list Log.t) :
  Forall (fun x => Log.id r < Log.id x) l -> Sqlite.insert_by_id r l = r :: l.
Proof.
  intros H. destruct l as [|x l]; [reflexivity|].
  inversion_clear H as [|? ? Hx _]. simpl.
  destruct (Z.leb_spec (Log.id r) (Log.id x)); [reflexivity | lia].
Qed.

(** Ordering by id leaves a table with ascending rowids as it is stored. *)
Lemma order_by_id_sorted (l : list Log.t) :
  StronglySorted Sqlite.by_id l -> Sqlite.order_by_id l = l.
Proof.
  induction 1 as [|r l Hs IH Hr]; simpl; [reflexivity|].
  rewrite IH. now apply insert_by_id_front.
Qed.

Lemma insert_by_id_perm (r : Log.t) (l : list Log.t) :
  Permutation (r :: l) (Sqlite.insert_by_id r l).
Proof.
  induction l as [|x l IH]; simpl; [reflexivity|].
  destruct (Log.id r <=? Log.id x); [reflexivity|].
  rewrite perm_swap. now constructor.
Qed.

(** Ordering by id neither drops nor invents a row. *)
Lemma order_by_id_perm (l : list Log.t) : Permutation l (Sqlite.order_by_id l).
Proof.
  induction l as [|r l IH]; simpl; [constructor|].
  rewrite <- insert_by_id_perm. now constructor.
Qed.

Lemma sorted_snoc (l : list Log.t) (r : Log.t) :
  StronglySorted Sqlite.by_id l ->
  Forall (fun x => Log.id x < Log.id r) l ->
  StronglySorted Sqlite.by_id (l ++ [r]).
Proof.
  induction 1 as [|x l Hs IH Hx]; intros Hr; simpl.
  - repeat constructor.
  - inversion_clear Hr as [|? ? Hxr Hl]. constructor; [now apply IH|].
    apply Forall_app. split; [assumption | now repeat constructor].
Qed.

Lemma wf_empty : Sqlite.wf Sqlite.empty.
Proof. split; constructor. Qed.

Lemma wf_insert ts m v la lo (d : Sqlite.t) :
  Sqlite.wf d -> Sqlite.wf (Sqlite.insert ts m v la lo d).
Proof.
  intros [Hs Hb]. unfold Sqlite.insert, Sqlite.next_rowid. split; simpl.
  - apply sorted_snoc; [assumption|]. simpl.
    eapply Forall_impl; [|exact Hb]. simpl. intros; lia.
  - apply Forall_app. split.
    + eapply Forall_impl; [|exact Hb]. simpl. intros; lia.
    + repeat constructor. simpl. lia.
Qed.

Lemma wf_exec (d : Sqlite.t) (q : Sqlite.stmt) : Sqlite.wf d -> Sqlite.wf (Sqlite.exec d q).
Proof.
  destruct q; simpl; [apply wf_insert|].
  intros _. split; constructor.
Qed.

Lemma wf_replay (h : list Sqlite.stmt) (d : Sqlite.t) :
  Sqlite.wf d -> Sqlite.wf (Sqlite.replay d h).
Proof.
  revert d. induction h as [|q h IH]; intros d Hd; simpl; [assumption|].
  apply IH. now apply wf_exec.
Qed.

Lemma select_asc_wf (d : Sqlite.t) : Sqlite.wf d -> Sqlite.select_asc d = Sqlite.rows d.
Proof. intros [Hs _]. now apply order_by_id_sorted. Qed.

Lemma rows_replay (h : list Sqlite.stmt) (d : Sqlite.t) :
  map Sqlite.fields (Sqlite.rows (Sqlite.replay d h))
  = Sqlite.surviving (map Sqlite.fields (Sqlite.rows d)) h.
Proof.
  unfold Sqlite.replay. revert d.
  induction h as [|q h IH]; intros d; simpl; [reflexivity|].
  rewrite IH. destruct q; simpl; [|reflexivity].
  now rewrite map_app.
Qed.

End TableFacts.

(** ** The save pipeline of [Upload] *)

Ltac unfold_handlers :=
  cbv beta iota zeta delta
    [Upload.saveLog Upload.getLocationForSave Upload.init Upload.clearLogs
     Upload.initial
     Upload.recordOneSecondVlog Upload.handler
     Upload.setDb Upload.setMood Upload.setHasLocationPermission
     Upload.setHasCameraPermission Upload.setVideoUri Upload.setIsRecording
     Upload.setLogs
     Upload.db Upload.mood Upload.hasLocationPermission Upload.hasCameraPermission
     Upload.videoUri Upload.isRecording Upload.logs
     Upload.now_iso Upload.now_ms Upload.location Upload.insert Upload.metadata
     Upload.upload_ms Upload.video Upload.permission Upload.position
     Upload.camera_permission Upload.camera
     Upload.open_database Upload.create_table Upload.recent_rows
     Upload.init_location_permission Upload.init_camera_permission
     Upload.notification_permission
     Upload.cancel_notifications Upload.schedule_notification
     scheduleDailyNotifications fold_right
     bind try_catch snapshot set_state await alert alert1 console_log ret
     runAsync getAllAsc getAllDescLimit5
     calls after outcome react database fst snd negb andb orb app].

Ltac split_cases :=
  repeat (unfold_handlers;
          match goal with
          | |- context [match ?x with _ => _ end] =>
              lazymatch x with
              | context [match _ with _ => _ end] => fail
              | _ => destruct x eqn:?
              end
          end).

(** [getLocationForSave] never throws, touches neither the table nor the
    draft nor the recent view, and attempts no leg. *)
Lemma getLocationForSave_frame (OS : string) (a : Upload.LocationAnswers)
      (s : Sys Upload.State) :
  let s' := after (Upload.getLocationForSave OS a) s in
  (exists o, outcome (Upload.getLocationForSave OS a) s = Val o)
  /\ database s' = database s
  /\ Upload.db (react s') = Upload.db (react s)
  /\ Upload.mood (react s') = Upload.mood (react s)
  /\ Upload.videoUri (react s') = Upload.videoUri (react s)
  /\ Upload.logs (react s') = Upload.logs (react s)
  /\ legs (calls (Upload.getLocationForSave OS a) s) = [].
Proof.
  destruct s as [[d m hl hc v r l] tbl]. destruct a as [perm pos].
  cbv zeta. split_cases; cbn [legs leg_of]; repeat split; eauto.
Qed.

(** Without coordinates, [getLocationForSave] has told the user why: its last
    call is an alert. *)
Lemma getLocationForSave_null_alerts (OS : string) (a : Upload.LocationAnswers)
      (s : Sys Upload.State) :
  outcome (Upload.getLocationForSave OS a) s = Val None ->
  exists title message,
    last (calls (Upload.getLocationForSave OS a) s) (ConsoleLog [])
    = Alert title message.
Proof.
  destruct s as [[d m hl hc v r l] tbl]. destruct a as [perm pos].
  split_cases; intros H; try discriminate H; cbn [last]; eauto.
Qed.

(** A save without a video is turned away with an alert and changes nothing. *)
Lemma saveLog_without_video (OS : string) (a : Upload.SaveAnswers) (s : Sys Upload.State) :
  truthy (Upload.videoUri (react s)) = false ->
  Upload.saveLog OS a s
  = (Val tt, s, [Alert "請先錄製 vlog" (Some "儲存前請先錄製 1 秒 vlog。")]).
Proof.
  intros H. unfold Upload.saveLog, bind, snapshot. simpl.
  rewrite H. simpl. now destruct s.
Qed.

(** A save with a video but without coordinates stops there. *)
Lemma saveLog_without_location (OS : string) (a : Upload.SaveAnswers) (s : Sys Upload.State) :
  truthy (Upload.videoUri (react s)) = true ->
  outcome (Upload.getLocationForSave OS (Upload.location a)) s = Val None ->
  Upload.saveLog OS a s
  = (Val tt, after (Upload.getLocationForSave OS (Upload.location a)) s,
     calls (Upload.getLocationForSave OS (Upload.location a)) s).
Proof.
  intros Hv Hl. unfold Upload.saveLog, bind, snapshot at 1. simpl.
  rewrite Hv. simpl. unfold outcome, after, calls in *.
  destruct (Upload.getLocationForSave OS (Upload.location a) s) as [[o s1] t1].
  simpl in *. subst o. simpl. now rewrite app_nil_r.
Qed.

(** A save with a video and coordinates puts [newLog] in front of the recent
    view and runs the insert, whatever the two requests come back with. *)
Lemma saveLog_appends (OS : string) (a : Upload.SaveAnswers) (s : Sys Upload.State)
      (loc : Coords) :
  truthy (Upload.videoUri (react s)) = true ->
  outcome (Upload.getLocationForSave OS (Upload.location a)) s = Val (Some loc) ->
  let s' := after (Upload.saveLog OS a) s in
  outcome (Upload.saveLog OS a) s = Val tt
  /\ Upload.logs (react s')
     = push_recent (Upload.newLog a (react s) loc) (Upload.logs (react s))
  /\ database s' = table_after_save OS a (react s) loc (database s)
  /\ Upload.db (react s') = Upload.db (react s)
  /\ Upload.mood (react s') = Upload.mood (react s)
  /\ Upload.videoUri (react s') = Upload.videoUri (react s).
Proof.
  destruct s as [[d m hl hc v r l] tbl]. destruct a as [iso ms [perm pos] ins meta ums vid].
  unfold table_after_save, Upload.newLog. cbv zeta.
  split_cases; intros Hv Hl; try discriminate Hv; try discriminate Hl;
    injection Hl as <-; repeat split.
Qed.

(** C1 as specified does not hold: a metadata request that comes back with
    an error status has failed, and the video request is sent all the same,
    the save ending in the alert that everything was uploaded. *)
Lemma error_response_does_not_stop_media :
  legs (calls (Upload.saveLog "ios" (Scenario.save (Val tt) (Val 500) (Val 200)))
              Scenario.recorded)
  = [LocalAppend; MetadataLeg; MediaLeg]
  /\ last (calls (Upload.saveLog "ios" (Scenario.save (Val tt) (Val 500) (Val 200)))
                 Scenario.recorded)
          (ConsoleLog [])
     = Alert "已儲存並上傳" (Some "這次的心情、GPS 與 vlog 影片已上傳到後端。").
Proof. split; vm_compute; reflexivity. Qed.

(** C1, amended: within one save the legs are attempted in the order local
    insert, metadata request, video request, each at most once and each after
    the one before it has come back; where the screen has a database the
    metadata request follows the insert; the video request is attempted only
    after the metadata request has come back with a response, never after it
    has thrown; and the response is not read: whatever its status, a save
    that got as far as its record goes on to the video request. *)
Theorem save_legs_in_order (OS : string) (a : Upload.SaveAnswers) (s : Sys Upload.State) :
  let t := calls (Upload.saveLog OS a) s in
  StronglySorted leg_before (legs t)
  /\ (In MediaLeg (legs t) ->
      In MetadataLeg (legs t) /\ exists status, Upload.metadata a = Val status)
  /\ (In MetadataLeg (legs t) ->
      negb (Upload.isWeb OS) && Upload.db (react s) = true ->
      In LocalAppend (legs t))
  /\ (forall e, Upload.metadata a = Throw e -> ~ In MediaLeg (legs t))
  /\ (forall status r,
        Upload.metadata a = Val status ->
        saved_record OS a s = Some r ->
        In MetadataLeg (legs t) /\ In MediaLeg (legs t)).
Proof.
  unfold saved_record.
  destruct s as [[d m hl hc v r l] tbl]. destruct a as [iso ms [perm pos] ins meta ums vid].
  cbv zeta. split_cases.
  all: cbn [legs leg_of Upload.metadata In].
  all: refine (conj _ (conj _ (conj _ (conj _ _))));
    try (repeat constructor; unfold leg_before; simpl; lia).
  all: try (intros; exfalso; intuition discriminate).
  all: eauto.
  all: intuition (try discriminate; eauto).
Qed.

Lemma save_legs_in_order_witness :
  legs (calls (Upload.saveLog "ios"
                 (Scenario.save (Val tt) (Throw "Network request failed") (Val 200)))
              Scenario.recorded)
  = [LocalAppend; MetadataLeg]
  /\ ~ In MediaLeg
       (legs (calls (Upload.saveLog "ios"
                       (Scenario.save (Val tt) (Throw "Network request failed") (Val 200)))
                    Scenario.recorded)).
Proof.
  split; [reflexivity|].
  exact (proj1 (proj2 (proj2 (proj2
           (save_legs_in_order "ios"
              (Scenario.save (Val tt) (Throw "Network request failed") (Val 200))
              Scenario.recorded))))
           "Network request failed" eq_refl).
Defined.

(** C2: a save attempted without a video, or for which no location can be
    had, ends in an alert, attempts no leg, and leaves the table, the recent
    view and the draft (mood, video) as they were; once the video is there
    and a location is had, the next save records the draft. *)
Theorem incomplete_save_rejected (OS : string) (a : Upload.SaveAnswers)
        (s : Sys Upload.State) :
  truthy (Upload.videoUri (react s)) = false
  \/ outcome (Upload.getLocationForSave OS (Upload.location a)) s = Val None ->
  let s' := after (Upload.saveLog OS a) s in
  let t := calls (Upload.saveLog OS a) s in
  outcome (Upload.saveLog OS a) s = Val tt
  /\ (exists title message, last t (ConsoleLog []) = Alert title message)
  /\ legs t = []
  /\ database s' = database s
  /\ Upload.logs (react s') = Upload.logs (react s)
  /\ Upload.mood (react s') = Upload.mood (react s)
  /\ Upload.videoUri (react s') = Upload.videoUri (react s)
  /\ (forall (supplied : option string) (a' : Upload.SaveAnswers) (loc : Coords),
        let s1 := match supplied with
                  | Some uri => after (Upload.setVideoUri (Some uri)) s'
                  | None => s'
                  end in
        truthy (Upload.videoUri (react s1)) = true ->
        outcome (Upload.getLocationForSave OS (Upload.location a')) s1 = Val (Some loc) ->
        let s2 := after (Upload.saveLog OS a') s1 in
        outcome (Upload.saveLog OS a') s1 = Val tt
        /\ hd_error (Upload.logs (react s2))
           = Some (Log.mk (Upload.now_ms a') (Upload.now_iso a') (Upload.mood (react s))
                          (or_empty (Upload.videoUri (react s1))) (c_lat loc) (c_lng loc))).
Proof.
  intros Hmissing s' t.
  assert (Hrun : outcome (Upload.saveLog OS a) s = Val tt
                 /\ (exists title message, last t (ConsoleLog []) = Alert title message)
                 /\ legs t = []
                 /\ database s' = database s
                 /\ Upload.logs (react s') = Upload.logs (react s)
                 /\ Upload.mood (react s') = Upload.mood (react s)
                 /\ Upload.videoUri (react s') = Upload.videoUri (react s)).
  { subst s' t. unfold outcome, after, calls.
    destruct (truthy (Upload.videoUri (react s))) eqn:Hv.
    - destruct Hmissing as [Hm | Hl]; [discriminate Hm|].
      rewrite (saveLog_without_location OS a s Hv Hl). cbn [fst snd].
      destruct (getLocationForSave_frame OS (Upload.location a) s)
        as (_ & Hd & _ & Hm & Hu & Hlogs & Hlegs).
      repeat split; auto.
      now apply getLocationForSave_null_alerts.
    - rewrite (saveLog_without_video OS a s Hv). cbn [fst snd legs leg_of last].
      repeat split; eauto. }
  destruct Hrun as (Ho & Ha & Hlegs & Hd & Hlogs & Hm & Hu).
  repeat split; auto.
  - destruct (saveLog_appends OS a' _ loc H H0) as (Ho' & _). exact Ho'.
  - destruct (saveLog_appends OS a' _ loc H H0) as (_ & Hl' & _).
    rewrite Hl'. unfold push_recent, slice0, Upload.newLog. cbn [firstn hd_error].
    do 2 f_equal. destruct supplied; [|exact Hm].
    rewrite <- Hm. now destruct s' as [[]].
Qed.

Lemma incomplete_save_rejected_witness :
  truthy (Upload.videoUri (react Scenario.drafted)) = false
  /\ outcome (Upload.saveLog "ios" (Scenario.save (Val tt) (Val 200) (Val 200)))
             Scenario.drafted = Val tt
  /\ database (after (Upload.saveLog "ios" (Scenario.save (Val tt) (Val 200) (Val 200)))
                     Scenario.drafted)
     = database Scenario.drafted.
Proof.
  split; [reflexivity|].
  pose proof (incomplete_save_rejected "ios" (Scenario.save (Val tt) (Val 200) (Val 200))
                Scenario.drafted (or_introl eq_refl)) as H.
  cbv zeta in H. destruct H as (Ho & _ & _ & Hd & _).
  split; assumption.
Defined.

(** C3: once the insert of a save has completed, the row is in the table and
    stays there whatever the metadata and the video request come back with:
    the table is the one the insert left, its rows in id order are the
    earlier rows followed by the new one, and the recent view shows the
    record first. *)
Theorem sync_failure_keeps_local_record
        (OS iso : string) (ms ums : Z) (la : Upload.LocationAnswers)
        (meta vid : Result Z) (s : Sys Upload.State) (loc : Coords) :
  let a := Upload.mkSaveAnswers iso ms la (Val tt) meta ums vid in
  Upload.isWeb OS = false ->
  Upload.db (react s) = true ->
  truthy (Upload.videoUri (react s)) = true ->
  outcome (Upload.getLocationForSave OS la) s = Val (Some loc) ->
  Sqlite.wf (database s) ->
  let s' := after (Upload.saveLog OS a) s in
  let row := Log.mk (Sqlite.next_rowid (database s)) iso (Upload.mood (react s))
                    (or_empty (Upload.videoUri (react s))) (c_lat loc) (c_lng loc) in
  database s' = Sqlite.insert iso (Upload.mood (react s))
                              (or_empty (Upload.videoUri (react s)))
                              (c_lat loc) (c_lng loc) (database s)
  /\ Sqlite.select_asc (database s') = Sqlite.select_asc (database s) ++ [row]
  /\ hd_error (Upload.logs (react s')) = Some (Upload.newLog a (react s) loc).
Proof.
  intros a Hweb Hdb Hv Hloc Hwf s' row.
  destruct (saveLog_appends OS a s loc Hv Hloc) as (_ & Hlogs & Htbl & _).
  fold s' in Hlogs, Htbl.
  unfold table_after_save in Htbl. rewrite Hweb, Hdb in Htbl. cbn in Htbl.
  repeat split.
  - exact Htbl.
  - rewrite Htbl, !select_asc_wf by (try apply wf_insert; assumption).
    reflexivity.
  - rewrite Hlogs. reflexivity.
Qed.

Lemma sync_failure_keeps_local_record_witness :
  Sqlite.rows
    (database (after (Upload.saveLog "ios"
                        (Scenario.save (Val tt) (Throw "Network request failed") (Val 200)))
                     Scenario.recorded))
  = [Log.mk 1 "2025-01-01T12:00:00.000Z" 4 "clip1.mp4" 25.033968 121.564468].
Proof.
  pose proof (sync_failure_keeps_local_record
                "ios" "2025-01-01T12:00:00.000Z" 1735732800000 1735732800250
                Scenario.gps_ok (Throw "Network request failed") (Val 200)
                Scenario.recorded Scenario.taipei
                eq_refl eq_refl eq_refl eq_refl wf_empty) as H.
  cbv zeta in H. destruct H as (H & _).
  unfold Scenario.save. rewrite H. reflexivity.
Defined.

(** C4: what the save does when the insert throws: the exception goes to the
    console only, both requests are still sent, and the closing alert is the
    one of a save that went through.  The table keeps the row it had. *)
Theorem insert_failure_is_swallowed :
  outcome (Upload.saveLog "ios" Scenario.save_disk_full) Scenario.saved_once = Val tt
  /\ calls (Upload.saveLog "ios" Scenario.save_disk_full) Scenario.saved_once
     = [ GetCurrentPosition;
         RunAsync (Sqlite.Insert "2025-01-01T13:00:00.000Z" 4 "clip1.mp4"
                                 25.033968 121.564468);
         ConsoleLog ["Insert error:"; "disk full"];
         FetchJson "https://emogo-backend-csj011018.onrender.com/api/logs"
                   (Upload.metadata_body Scenario.save_disk_full
                                         (react Scenario.saved_once) Scenario.taipei);
         FetchForm "https://emogo-backend-csj011018.onrender.com/api/upload-video"
                   (Upload.video_form Scenario.save_disk_full
                                      (react Scenario.saved_once) Scenario.taipei);
         Alert "已儲存並上傳" (Some "這次的心情、GPS 與 vlog 影片已上傳到後端。") ]
  /\ legs (calls (Upload.saveLog "ios" Scenario.save_disk_full) Scenario.saved_once)
     = [LocalAppend; MetadataLeg; MediaLeg]
  /\ Sqlite.rows (database (after (Upload.saveLog "ios" Scenario.save_disk_full)
                                  Scenario.saved_once))
     = [Log.mk 1 "2025-01-01T12:00:00.000Z" 4 "clip1.mp4" 25.033968 121.564468]
  /\ map Log.timestamp
         (Upload.logs (react (after (Upload.saveLog "ios" Scenario.save_disk_full)
                                    Scenario.saved_once)))
     = ["2025-01-01T13:00:00.000Z"; "2025-01-01T12:00:00.000Z"].
Proof.
  refine (conj _ (conj _ (conj _ (conj _ _)))); vm_compute; reflexivity.
Qed.

(** C10: on the web [getLocationForSave] answers the fixed pair at once,
    without a call to the platform and without a change of state, and a save
    that has its video goes on with exactly that pair: in the record it shows
    and in the metadata it sends first. *)
Theorem web_location_is_fixed (a : Upload.SaveAnswers) (s : Sys Upload.State) :
  let fixed := mkCoords 25.033968 121.564468 in
  Upload.getLocationForSave "web" (Upload.location a) s = (Val (Some fixed), s, [])
  /\ (truthy (Upload.videoUri (react s)) = true ->
      let s' := after (Upload.saveLog "web" a) s in
      Upload.logs (react s')
      = push_recent (Log.mk (Upload.now_ms a) (Upload.now_iso a) (Upload.mood (react s))
                            (or_empty (Upload.videoUri (react s)))
                            25.033968 121.564468)
                    (Upload.logs (react s))
      /\ hd_error (calls (Upload.saveLog "web" a) s)
         = Some (FetchJson (BACKEND_BASE_URL ++ "/api/logs")%string
                           (Upload.metadata_body a (react s) fixed))
      /\ database s' = database s).
Proof.
  intros fixed.
  assert (Hloc : Upload.getLocationForSave "web" (Upload.location a) s
                 = (Val (Some fixed), s, [])).
  { unfold Upload.getLocationForSave, bind, try_catch, snapshot, ret.
    change (Upload.isWeb "web") with true. cbn. now destruct s. }
  split; [exact Hloc|].
  intros Hv s'.
  assert (Ho : outcome (Upload.getLocationForSave "web" (Upload.location a)) s
               = Val (Some fixed)) by (unfold outcome; now rewrite Hloc).
  destruct (saveLog_appends "web" a s fixed Hv Ho) as (_ & Hlogs & Htbl & _).
  fold s' in Hlogs, Htbl. repeat split.
  - exact Hlogs.
  - unfold calls, Upload.saveLog, bind, snapshot at 1.
    rewrite Hv. cbn [negb]. rewrite Hloc.
    unfold Upload.setLogs, set_state, try_catch, await, ret.
    change (Upload.isWeb "web") with true. cbn [negb andb].
    destruct (Upload.metadata a), (Upload.video a); reflexivity.
  - rewrite Htbl. unfold table_after_save.
    change (Upload.isWeb "web") with true. reflexivity.
Qed.

Lemma web_location_is_fixed_witness :
  Upload.logs
    (react (after (Upload.saveLog "web" (Scenario.save (Val tt) (Val 200) (Val 200)))
                  Scenario.recorded))
  = [Log.mk 1735732800000 "2025-01-01T12:00:00.000Z" 4 "clip1.mp4"
            25.033968 121.564468].
Proof.
  pose proof (web_location_is_fixed (Scenario.save (Val tt) (Val 200) (Val 200))
                                    Scenario.recorded) as H.
  cbv zeta in H. destruct H as (_ & H). destruct (H eq_refl) as (Hl & _).
  rewrite Hl. reflexivity.
Defined.

(** ** The recent view and the mood scale *)

Lemma firstn_app_firstn {A : Type} (n : nat) (x y : list A) :
  firstn n (x ++ firstn n y) = firstn n (x ++ y).
Proof.
  rewrite !firstn_app, firstn_firstn. do 2 f_equal. lia.
Qed.

Lemma on_scale_firstn (n : nat) (l : list Log.t) : on_scale l -> on_scale (firstn n l).
Proof.
  unfold on_scale. revert l. induction n as [|n IH]; intros l H; simpl.
  - constructor.
  - destruct H; constructor; auto.
Qed.

Lemma on_scale_push (r : Log.t) (l : list Log.t) :
  valid_mood (Log.mood r) -> on_scale l -> on_scale (push_recent r l).
Proof.
  intros Hr Hl. apply on_scale_firstn. now constructor.
Qed.

Lemma on_scale_select_desc (d : Sqlite.t) :
  on_scale (Sqlite.rows d) -> on_scale (Sqlite.select_desc_limit5 d).
Proof.
  intros H. apply on_scale_firstn. unfold on_scale. apply Forall_rev.
  unfold Sqlite.select_asc. now rewrite <- order_by_id_perm.
Qed.

Lemma on_scale_insert ts m v la lo (d : Sqlite.t) :
  valid_mood m -> on_scale (Sqlite.rows d) ->
  on_scale (Sqlite.rows (Sqlite.insert ts m v la lo d)).
Proof.
  intros Hm Hd. unfold on_scale, Sqlite.insert. simpl.
  apply Forall_app. split; [assumption|].
  constructor; [exact Hm | constructor].
Qed.

Lemma mood_button_on_scale (i : nat) (value : Z) :
  nth_error Upload.moodButtons i = Some value -> valid_mood value.
Proof.
  intros H. apply nth_error_In in H. unfold valid_mood.
  simpl in H. intuition lia.
Qed.

Create HintDb screen.

#[local] Hint Resolve on_scale_push on_scale_select_desc on_scale_insert
  mood_button_on_scale firstn_le_length wf_insert wf_empty : screen.

#[local] Hint Extern 1 (on_scale (Sqlite.rows (Sqlite.exec _ _))) =>
  cbn [Sqlite.exec Sqlite.delete_all Sqlite.rows] : screen.
#[local] Hint Extern 1 (Sqlite.wf (Sqlite.exec _ _)) => apply wf_exec : screen.

#[local] Hint Extern 1 (valid_mood 3) => unfold valid_mood; lia : screen.
#[local] Hint Extern 1 (on_scale []) => constructor : screen.
#[local] Hint Extern 1 (List.length [] <= 5)%nat => simpl; lia : screen.
#[local] Hint Extern 1 (List.length (push_recent _ _) <= 5)%nat =>
  apply firstn_le_length : screen.
#[local] Hint Extern 1 (List.length (Sqlite.select_desc_limit5 _) <= 5)%nat =>
  apply firstn_le_length : screen.

(** Every handler of the screen keeps the invariant. *)
Lemma handler_keeps_invariant (OS : string) (act : Upload.Action) (s : Sys Upload.State) :
  screen_invariant s -> screen_invariant (after (Upload.handler OS act) s).
Proof.
  unfold screen_invariant.
  destruct s as [[d m hl hc v r l] tbl].
  destruct act as [[o c rr lp cp np cn sn] | i | [cp cam] | [iso ms [perm pos] ins meta ums vid] | del].
  all: cbn [react database Upload.mood Upload.logs].
  all: intros (Hm & Hl & Ht & Hn & Hwf).
  all: split_cases.
  all: refine (conj _ (conj _ (conj _ (conj _ _)))); eauto with screen.
Qed.

Lemma run_keeps_invariant (OS : string) (acts : list Upload.Action) (s : Sys Upload.State) :
  screen_invariant s -> screen_invariant (Upload.run OS acts s).
Proof.
  revert s. induction acts as [|act acts IH]; intros s Hs; simpl; [assumption|].
  apply IH. now apply handler_keeps_invariant.
Qed.

Lemma fresh_install_invariant : screen_invariant Upload.fresh_install.
Proof.
  unfold screen_invariant, valid_mood. simpl.
  refine (conj _ (conj _ (conj _ (conj _ _))));
    [lia | constructor | constructor | lia | exact wf_empty].
Qed.

(** What one save does to the recent view: the record it appends goes in
    front, and a save that is turned away leaves the view alone. *)
Lemma saveLog_recent_view (OS : string) (a : Upload.SaveAnswers) (s : Sys Upload.State) :
  Upload.logs (react (after (Upload.saveLog OS a) s))
  = match saved_record OS a s with
    | Some r => push_recent r (Upload.logs (react s))
    | None => Upload.logs (react s)
    end.
Proof.
  unfold saved_record.
  destruct (truthy (Upload.videoUri (react s))) eqn:Hv.
  - destruct (getLocationForSave_frame OS (Upload.location a) s)
      as ([o Ho] & _ & _ & _ & _ & Hlogs & _).
    rewrite Ho. destruct o as [loc|].
    + now destruct (saveLog_appends OS a s loc Hv Ho) as (_ & H & _).
    + unfold after at 1. rewrite (saveLog_without_location OS a s Hv Ho). exact Hlogs.
  - unfold after. now rewrite (saveLog_without_video OS a s Hv).
Qed.

Lemma saves_recent_view (OS : string) (saves : list Upload.SaveAnswers)
      (s : Sys Upload.State) :
  (List.length (Upload.logs (react s)) <= 5)%nat ->
  Upload.logs (react (Upload.run OS (map Upload.PressSave saves) s))
  = firstn 5 (rev (records_saved OS saves s) ++ Upload.logs (react s)).
Proof.
  revert s. induction saves as [|a saves IH]; intros s Hn;
    cbn [map records_saved Upload.run fold_left Upload.handler].
  - symmetry. now apply firstn_all2.
  - assert (Hstep := saveLog_recent_view OS a s).
    assert (Hn' : (List.length (Upload.logs (react (after (Upload.saveLog OS a) s))) <= 5)%nat).
    { rewrite Hstep. destruct (saved_record OS a s); [apply firstn_le_length | exact Hn]. }
    specialize (IH _ Hn'). unfold Upload.run in IH. rewrite IH, Hstep.
    destruct (saved_record OS a s) as [r|]; [|reflexivity].
    cbn [rev]. rewrite <- app_assoc. cbn [app].
    unfold push_recent, slice0. apply firstn_app_firstn.
Qed.

(** On a device whose database opens, the launch loads the recent view from
    the table: its five newest rows, newest first. *)
Lemma launch_loads_recent (OS : string) (a : Upload.InitAnswers) (s : Sys Upload.State) :
  Upload.isWeb OS = false ->
  Upload.open_database a = Val tt ->
  Upload.create_table a = Val tt ->
  Upload.recent_rows a = Val tt ->
  Upload.logs (react (after (Upload.handler OS (Upload.Launch a)) s))
  = Sqlite.select_desc_limit5 (database s).
Proof.
  destruct s as [[d m hl hc v r l] tbl]. destruct a as [o c rr lp cp np cn sn].
  cbn [Upload.open_database Upload.create_table Upload.recent_rows].
  intros Hweb -> -> ->. split_cases; try discriminate; reflexivity.
Qed.

(** C6: in every state the screen reaches the recent view has at most five
    records; a sequence of saves leaves in it the records they appended,
    newest first, followed by what it held before, cut at five; so the record
    of a save is its first entry, and once five or more have been appended it
    is exactly the last five of them, newest first.  A launch on a device
    fills it with the five newest rows of the table, newest first. *)
Theorem recent_view_newest_five (OS : string) (acts : list Upload.Action)
        (saves : list Upload.SaveAnswers) :
  let s := Upload.run OS acts Upload.fresh_install in
  let s' := Upload.run OS (map Upload.PressSave saves) s in
  let appended := records_saved OS saves s in
  (List.length (Upload.logs (react s)) <= 5)%nat
  /\ Upload.logs (react s') = firstn 5 (rev appended ++ Upload.logs (react s))
  /\ ((5 <= List.length appended)%nat -> Upload.logs (react s') = firstn 5 (rev appended))
  /\ (forall a r, saves = [a] -> saved_record OS a s = Some r ->
      hd_error (Upload.logs (react s')) = Some r)
  /\ (forall a, Upload.isWeb OS = false ->
      Upload.open_database a = Val tt -> Upload.create_table a = Val tt ->
      Upload.recent_rows a = Val tt ->
      Upload.logs (react (Upload.run OS [Upload.Launch a] s))
      = firstn 5 (rev (Sqlite.select_asc (database s)))).
Proof.
  intros s s' appended.
  assert (Hinv : screen_invariant s)
    by (apply run_keeps_invariant, fresh_install_invariant).
  destruct Hinv as (_ & _ & _ & Hn & _).
  assert (Hview := saves_recent_view OS saves s Hn).
  fold s' appended in Hview.
  split; [exact Hn|]. split; [exact Hview|]. split; [|split].
  - intros Hfive. rewrite Hview, firstn_app.
    replace (5 - List.length (rev appended))%nat with 0%nat
      by (rewrite length_rev; lia).
    apply app_nil_r.
  - intros a r -> Hr. rewrite Hview. subst appended. simpl. now rewrite Hr.
  - intros a Hweb Ho Hc Hr. simpl. now apply launch_loads_recent.
Qed.

Lemma recent_view_newest_five_witness :
  Upload.logs
    (react (Upload.run "ios"
              (map Upload.PressSave [Scenario.save (Val tt) (Val 200) (Val 200)])
              Scenario.recorded))
  = [Log.mk 1735732800000 "2025-01-01T12:00:00.000Z" 4 "clip1.mp4"
            25.033968 121.564468].
Proof.
  pose proof (recent_view_newest_five "ios"
                [Upload.Launch Scenario.init_ok; Upload.PressMood 3;
                 Upload.PressRecord Scenario.clip]
                [Scenario.save (Val tt) (Val 200) (Val 200)]) as H.
  cbv zeta in H. destruct H as (_ & H & _).
  etransitivity; [exact H|]. vm_compute. reflexivity.
Defined.

(** [setMood] stores the value it is given, whatever it is. *)
Lemma setMood_stores (value : Z) (s : Sys Upload.State) :
  Upload.mood (react (after (Upload.setMood value) s)) = value.
Proof. reflexivity. Qed.

(** C9 as specified does not hold: [setMood 7] is neither turned away nor
    clamped. *)
Lemma setMood_does_not_validate :
  Upload.mood (react (after (Upload.setMood 7) Upload.fresh_install)) = 7
  /\ ~ valid_mood 7.
Proof.
  split; [apply setMood_stores|]. unfold valid_mood. lia.
Qed.

(** C9, amended: [setMood] checks nothing, but the screen starts at 3 and only
    calls it from the buttons 1 to 5; so in every state the screen reaches
    through its actions the mood is in 1..5, and so is the mood of every
    record in the recent view and of every row of the table. *)
Theorem mood_stays_on_scale (OS : string) (acts : list Upload.Action) :
  let s := Upload.run OS acts Upload.fresh_install in
  valid_mood (Upload.mood (react s))
  /\ on_scale (Upload.logs (react s))
  /\ on_scale (Sqlite.rows (database s)).
Proof.
  intros s.
  destruct (run_keeps_invariant OS acts _ fresh_install_invariant)
    as (Hm & Hl & Ht & _).
  auto.
Qed.

(** In every state the screen reaches, the table is well formed: the
    assumption of C3 holds of it. *)
Lemma reachable_table_wf (OS : string) (acts : list Upload.Action) :
  Sqlite.wf (database (Upload.run OS acts Upload.fresh_install)).
Proof.
  now destruct (run_keeps_invariant OS acts _ fresh_install_invariant)
    as (_ & _ & _ & _ & Hwf).
Qed.

(** ** Export *)

Ltac unfold_export :=
  cbv beta iota zeta delta
    [FileExport.exportLogsAsJson FileExport.allLogs FileExport.saveLog
     FileExport.getCurrentLocation FileExport.recordOneSecondVlog FileExport.init
     FileExport.clearLogs FileExport.handler FileExport.initial
     FileExport.setDb FileExport.setMood FileExport.setLocation
     FileExport.setHasLocationPermission FileExport.setHasCameraPermission
     FileExport.setVideoUri FileExport.setIsRecording FileExport.setLogs
     FileExport.db FileExport.mood FileExport.location
     FileExport.hasLocationPermission FileExport.hasCameraPermission
     FileExport.videoUri FileExport.isRecording FileExport.logs
     FileExport.now_iso FileExport.now_ms FileExport.insert
     FileExport.permission FileExport.position
     FileExport.all_rows FileExport.exported_at FileExport.documentDirectory
     FileExport.file_ms FileExport.write FileExport.share
     FileExport.error_message FileExport.error_json
     BrowserExport.allLogs BrowserExport.db BrowserExport.logs
     Upload.camera_permission Upload.camera
     Upload.open_database Upload.create_table Upload.recent_rows
     Upload.init_location_permission Upload.init_camera_permission
     Upload.notification_permission
     Upload.cancel_notifications Upload.schedule_notification
     scheduleDailyNotifications fold_right
     bind try_catch snapshot set_state await alert alert1 console_log ret
     runAsync getAllAsc getAllDescLimit5
     calls after outcome react database fst snd negb andb orb app].

Ltac split_export :=
  repeat (unfold_export;
          match goal with
          | |- context [match ?x with _ => _ end] =>
              lazymatch x with
              | context [match _ with _ => _ end] => fail
              | _ => destruct x eqn:?
              end
          end).

(** Where [allLogs] takes the records from. *)
Lemma allLogs_source (OS : string) (st : FileExport.State) (d : Sqlite.t) :
  outcome (FileExport.allLogs OS (Val tt)) (mkSys st d)
  = Val (if negb (FileExport.isWeb OS) && FileExport.db st
         then Sqlite.select_asc d
         else rev (FileExport.logs st)).
Proof.
  destruct st as [db m loc hl hc v r l]. split_export; reflexivity.
Qed.

Lemma allLogs_source_browser (st : BrowserExport.State) (d : Sqlite.t) :
  outcome (BrowserExport.allLogs (Val tt)) (mkSys st d)
  = Val (if BrowserExport.db st then Sqlite.select_asc d else rev (BrowserExport.logs st)).
Proof.
  destruct st as [db m loc hl v l]. split_export; reflexivity.
Qed.

(** What holds of the exporting screen at all times: its recent view has at
    most five records and its table is well formed. *)
Lemma export_handler_keeps_invariant (OS : string) (act : FileExport.Action)
      (s : Sys FileExport.State) :
  (List.length (FileExport.logs (react s)) <= 5)%nat /\ Sqlite.wf (database s) ->
  (List.length (FileExport.logs (react (after (FileExport.handler OS act) s))) <= 5)%nat
  /\ Sqlite.wf (database (after (FileExport.handler OS act) s)).
Proof.
  destruct s as [[db m loc hl hc v r l] tbl].
  destruct act as [[o c rr lp cp np cn sn] | i | [cp cam] | [perm pos] | [iso ms ins]
                  | [rows at_ dir fms w sh em ej] | del].
  all: cbn [react database FileExport.logs]; intros (Hn & Hwf).
  all: split_export; split; eauto with screen.
Qed.

Lemma export_run_keeps_invariant (OS : string) (acts : list FileExport.Action)
      (s : Sys FileExport.State) :
  (List.length (FileExport.logs (react s)) <= 5)%nat /\ Sqlite.wf (database s) ->
  (List.length (FileExport.logs (react (FileExport.run OS acts s))) <= 5)%nat
  /\ Sqlite.wf (database (FileExport.run OS acts s)).
Proof.
  revert s. induction acts as [|act acts IH]; intros s Hs; simpl; [assumption|].
  apply IH. now apply export_handler_keeps_invariant.
Qed.

(** C5 as specified does not hold where there is no database: on the web
    six saves leave five records for the export, the first one gone. *)
Lemma all_is_capped_without_database :
  List.length Scenario.six_saves = 6%nat
  /\ exists all,
      outcome (FileExport.allLogs "web" (Val tt)) Scenario.web_after_six = Val all
      /\ List.length all = 5%nat
      /\ map Log.timestamp all
         = [ "2025-01-01T12:02:00.000Z"; "2025-01-01T12:03:00.000Z";
             "2025-01-01T12:04:00.000Z"; "2025-01-01T12:05:00.000Z";
             "2025-01-01T12:06:00.000Z" ].
Proof.
  split; [reflexivity|]. eexists. split; [|split].
  - vm_compute. reflexivity.
  - reflexivity.
  - reflexivity.
Qed.

(** C5, amended: with the database open on a device, the export reads the
    whole table in id order, which is the order of insertion: after any
    history of inserts and deletes on top of what earlier sessions left, it
    returns every record inserted since the last delete, oldest first,
    however many they are and whatever the recent view holds.  Without a
    database (on the web, or when it failed to open) it returns the recent
    view reversed.  In every state the screen reaches that view holds at
    most five records, and the table is one such history can be run on. *)
Theorem all_reads_table_in_insertion_order
        (OS : string) (st : FileExport.State) (bst : BrowserExport.State)
        (d0 : Sqlite.t) (h : list Sqlite.stmt) :
  Sqlite.wf d0 ->
  let d := Sqlite.replay d0 h in
  outcome (FileExport.allLogs OS (Val tt)) (mkSys st d)
  = Val (if negb (FileExport.isWeb OS) && FileExport.db st
         then Sqlite.rows d
         else rev (FileExport.logs st))
  /\ outcome (BrowserExport.allLogs (Val tt)) (mkSys bst d)
     = Val (if BrowserExport.db bst then Sqlite.rows d else rev (BrowserExport.logs bst))
  /\ StronglySorted Sqlite.by_id (Sqlite.rows d)
  /\ map Sqlite.fields (Sqlite.rows d)
     = Sqlite.surviving (map Sqlite.fields (Sqlite.rows d0)) h
  /\ (forall acts,
        let s := FileExport.run OS acts FileExport.fresh_install in
        (List.length (FileExport.logs (react s)) <= 5)%nat /\ Sqlite.wf (database s)).
Proof.
  intros Hwf d.
  assert (Hd : Sqlite.wf d) by now apply wf_replay.
  rewrite allLogs_source, allLogs_source_browser, (select_asc_wf d Hd).
  refine (conj eq_refl (conj eq_refl (conj _ (conj _ _)))).
  - apply Hd.
  - apply rows_replay.
  - intros acts. apply export_run_keeps_invariant. simpl.
    split; [lia | exact wf_empty].
Qed.

Lemma all_reads_table_in_insertion_order_witness :
  outcome (FileExport.allLogs "ios" (Val tt)) Scenario.one_record
  = Val [Log.mk 1 "2025-01-01T12:00:00.000Z" 4 "clip1.mp4" 25.033968 121.564468].
Proof.
  pose proof (all_reads_table_in_insertion_order
                "ios" (react Scenario.one_record) BrowserExport.initial Sqlite.empty
                [Sqlite.Insert "2025-01-01T12:00:00.000Z" 4 "clip1.mp4"
                               25.033968 121.564468]
                wf_empty) as H.
  cbv zeta in H. destruct H as (H & _).
  exact H.
Defined.

(** ** Reading back what [JSON.stringify] wrote *)

Lemma append_assoc (a b c : string) : ((a ++ b) ++ c = a ++ (b ++ c))%string.
Proof. induction a as [|x a IH]; cbn; [reflexivity | now rewrite IH]. Qed.
















Lemma starts_value_quote (s : string) : starts_value (Js.quote s).
Proof. reflexivity. Qed.






























(** The text of a payload is the same opening, the instant quoted, and a
    remainder that does not depend on the instant. *)
Lemma payload_text_split (OS exportedAt : string) (all : list Log.t) :
  Js.JSON_stringify_2 (FileExport.payload OS exportedAt all)
  = (document_head ++ Js.quote exportedAt ++ document_tail OS all)%string.
Proof.
  set (J := Js.join ("," ++ Js.newline ++ "  ")
              [ member_text "device" (Js.quote OS);
                member_text "count" (Js.Z_toString (Z.of_nat (List.length all)));
                member_text "records"
                  (Js.serialize "  " "  " (Js.JArr (map FileExport.record_json all))) ]).
  change (Js.JSON_stringify_2 (FileExport.payload OS exportedAt all))
    with ("{" ++ Js.newline ++ "  "
          ++ ((Js.quote "exportedAt" ++ ": " ++ Js.quote exportedAt)
              ++ ("," ++ Js.newline ++ "  ") ++ J)
          ++ Js.newline ++ "" ++ "}")%string.
  unfold document_head, document_tail. fold J.
  rewrite ?append_assoc. reflexivity.
Qed.

(** Reading the records of a payload back gives the exported tuples. *)
Lemma read_all_records (all : list Log.t) :
  FileExport.read_all (map FileExport.record_json all) = Some (map Sqlite.fields all).
Proof.
  induction all as [|row all IH]; [reflexivity|].
  cbn [map FileExport.read_all]. rewrite IH. reflexivity.
Qed.

Lemma read_payload (OS exportedAt : string) (all : list Log.t) :
  FileExport.read_exportedAt (FileExport.payload OS exportedAt all) = Some exportedAt
  /\ FileExport.read_count (FileExport.payload OS exportedAt all)
     = Some (Z.of_nat (List.length all))
  /\ FileExport.read_records (FileExport.payload OS exportedAt all)
     = Some (map Sqlite.fields all).
Proof.
  repeat split; try reflexivity.
  unfold FileExport.read_records, FileExport.payload. cbn [FileExport.member String.eqb Ascii.eqb Bool.eqb].
  apply read_all_records.
Qed.

(** The text an export prints or writes: none unless the read gave at least
    one record, and then the payload of these records, indented by two. *)
Lemma exported_text_of_export (OS : string) (a : FileExport.ExportAnswers)
      (s : Sys FileExport.State) :
  exported_text (calls (FileExport.exportLogsAsJson OS a) s)
  = match outcome (FileExport.allLogs OS (FileExport.all_rows a)) s with
    | Val (row :: rest) =>
        Some (Js.JSON_stringify_2
                (FileExport.payload OS (FileExport.exported_at a) (row :: rest)))
    | _ => None
    end.
Proof.
  destruct s as [[db m loc hl hc v r l] tbl]. destruct a as [rows at_ dir ms w sh em ej].
  split_export; reflexivity.
Qed.




(** C8 as specified does not hold: two exports of the same records at two
    instants give two different texts. *)
Lemma export_text_depends_on_instant :
  exists first second,
    exported_text
      (calls (FileExport.exportLogsAsJson "ios" (Scenario.export_at "2025-01-02T08:00:00.000Z"))
             Scenario.one_record) = Some first
    /\ exported_text
         (calls (FileExport.exportLogsAsJson "ios" (Scenario.export_at "2025-01-02T08:00:01.000Z"))
                Scenario.one_record) = Some second
    /\ String.eqb first second = false.
Proof.
  do 2 eexists. split; [|split].
  - vm_compute. reflexivity.
  - vm_compute. reflexivity.
  - vm_compute. reflexivity.
Qed.

(** C8, amended: the text of an export is fixed by the platform, the records
    read and the instant of the export: two exports that read the same
    records at the same instant print or write the same text, and at two
    instants their texts differ in the value of exportedAt only: each is
    the same opening, the instant of that export quoted, and the same
    remainder, which the platform and the records fix. *)
Theorem export_text_determined (OS : string) (a1 a2 : FileExport.ExportAnswers)
        (s1 s2 : Sys FileExport.State) :
  outcome (FileExport.allLogs OS (FileExport.all_rows a1)) s1
  = outcome (FileExport.allLogs OS (FileExport.all_rows a2)) s2 ->
  (FileExport.exported_at a1 = FileExport.exported_at a2 ->
   exported_text (calls (FileExport.exportLogsAsJson OS a1) s1)
   = exported_text (calls (FileExport.exportLogsAsJson OS a2) s2))
  /\ match outcome (FileExport.allLogs OS (FileExport.all_rows a1)) s1 with
     | Val (row :: rest) =>
         exported_text (calls (FileExport.exportLogsAsJson OS a1) s1)
         = Some (document_head ++ Js.quote (FileExport.exported_at a1)
                 ++ document_tail OS (row :: rest))%string
         /\ exported_text (calls (FileExport.exportLogsAsJson OS a2) s2)
            = Some (document_head ++ Js.quote (FileExport.exported_at a2)
                    ++ document_tail OS (row :: rest))%string
     | _ =>
         exported_text (calls (FileExport.exportLogsAsJson OS a1) s1) = None
         /\ exported_text (calls (FileExport.exportLogsAsJson OS a2) s2) = None
     end.
Proof.
  intros Hread. split.
  - intros Hat. rewrite !exported_text_of_export, Hread, Hat. reflexivity.
  - rewrite !exported_text_of_export, <- Hread.
    destruct (outcome (FileExport.allLogs OS (FileExport.all_rows a1)) s1) as [[|row rest]|e];
      try (split; reflexivity).
    rewrite !payload_text_split. split; reflexivity.
Qed.

Lemma export_text_determined_witness :
  exported_text
    (calls (FileExport.exportLogsAsJson "ios" (Scenario.export_at "2025-01-02T08:00:00.000Z"))
           Scenario.one_record)
  = exported_text
      (calls (FileExport.exportLogsAsJson "ios"
                (FileExport.mkExportAnswers (Val tt) "2025-01-02T08:00:00.000Z" None
                                            0 (Throw "unused") (Throw "unused") None "{}"))
             Scenario.one_record).
Proof.
  exact (proj1 (export_text_determined "ios"
                  (Scenario.export_at "2025-01-02T08:00:00.000Z")
                  (FileExport.mkExportAnswers (Val tt) "2025-01-02T08:00:00.000Z" None
                                              0 (Throw "unused") (Throw "unused") None "{}")
                  Scenario.one_record Scenario.one_record eq_refl)
               eq_refl).
Defined.

(** ** The looser variant *)

(** The variant that opens the export in a browser asks only for a location:
    without one its save ends in an alert and changes nothing, and with one
    it shows the record whether or not a video was recorded. *)
Lemma browser_save_needs_location (a : BrowserExport.SaveAnswers)
      (s : Sys BrowserExport.State) :
  BrowserExport.location (react s) = None ->
  BrowserExport.saveLog a s = (Val tt, s, [Alert "請先取得 GPS" None])
  /\ forall loc : Coords,
      hd_error (BrowserExport.logs
                  (react (after (BrowserExport.saveLog a)
                                (after (BrowserExport.setLocation (Some loc)) s))))
      = Some (Log.mk (BrowserExport.now_ms a) (BrowserExport.now_iso a)
                     (BrowserExport.mood (react s))
                     (or_empty (BrowserExport.videoUri (react s)))
                     (c_lat loc) (c_lng loc)).
Proof.
  destruct s as [[db m loc hl v l] tbl]. destruct a as [iso ms ins].
  cbn [react BrowserExport.location]. intros ->. split; [reflexivity|].
  intros loc. destruct db, ins; reflexivity.
Qed.

(** ** The scenarios, run *)

(** A save with the video but with the location permission refused: one
    request for the permission, then the alert, and nothing else. *)
Example save_with_location_refused :
  Upload.saveLog "ios"
    (Upload.mkSaveAnswers "2025-01-01T12:00:00.000Z" 1735732800000 Scenario.gps_denied
                          (Val tt) (Val 200) 1735732800250 (Val 200))
    (mkSys (Upload.mkState true 4 false true (Some "clip1.mp4") false []) Sqlite.empty)
  = (Val tt,
     mkSys (Upload.mkState true 4 false true (Some "clip1.mp4") false []) Sqlite.empty,
     [ RequestLocationPermission;
       Alert "需要位置權限" (Some "請到設定開啟位置權限才能儲存紀錄。") ]).
Proof. vm_compute. reflexivity. Qed.

(** The text written for one record. *)
Example export_text_one_record :
  exported_text
    (calls (FileExport.exportLogsAsJson "ios" (Scenario.export_at "2025-01-02T08:00:00.000Z"))
           Scenario.one_record)
  = Some (Js.join Js.newline
      [ "{";
        "  " ++ Js.quote "exportedAt" ++ ": " ++ Js.quote "2025-01-02T08:00:00.000Z" ++ ",";
        "  " ++ Js.quote "device" ++ ": " ++ Js.quote "ios" ++ ",";
        "  " ++ Js.quote "count" ++ ": 1,";
        "  " ++ Js.quote "records" ++ ": [";
        "    {";
        "      " ++ Js.quote "timestamp" ++ ": " ++ Js.quote "2025-01-01T12:00:00.000Z" ++ ",";
        "      " ++ Js.quote "mood" ++ ": 4,";
        "      " ++ Js.quote "videoUri" ++ ": " ++ Js.quote "clip1.mp4" ++ ",";
        "      " ++ Js.quote "lat" ++ ": 25.033968,";
        "      " ++ Js.quote "lng" ++ ": 121.564468";
        "    }";
        "  ]";
        "}" ]%string).
Proof. vm_compute. reflexivity. Qed.

(** ** The engine's formatting, on the values of the scenarios *)

Example Number_toString_taipei :
  map Js.Number_toString [25.033968; 121.564468; 0.1; 1e21; 5e-324; 100; 1e-7; -1.5]%float
  = ["25.033968"; "121.564468"; "0.1"; "1e+21"; "5e-324"; "100"; "1e-7"; "-1.5"].
Proof. vm_compute. reflexivity. Qed.

Example toFixed_taipei :
  map (Js.toFixed 5) [25.033968; 121.564468; 1.5; 0; -0; -1.5; -0.000001]%float
  = ["25.03397"; "121.56447"; "1.50000"; "0.00000"; "0.00000"; "-1.50000"; "-0.00000"].
Proof. vm_compute. reflexivity. Qed.

(** Numbers that read back from their JSON text, and three that do not: the
    infinities and the negative zero. *)
Example numbers_that_read_back :
  Forall reads_back
    [25.033968; 121.564468; 0.1; 1e21; 5e-324; 1.7976931348623157e308; -1.5; 100;
     1e-7; 0; 0.000001; 123456789012345680000; 4.35; 1e23; -33.8688; 151.2093]%float
  /\ map (fun x => Js.decode_number (Js.JSON_number x)) [infinity; neg_infinity; (-0)%float]
     = [None; None; Some 0%float].
Proof.
  split; [|vm_compute; reflexivity].
  repeat (apply Forall_cons; [vm_compute; reflexivity|]). apply Forall_nil.
Qed.

Example JSON_parse_escapes :
  Js.JSON_parse (Js.JSON_stringify (Js.JArr [Js.JStr (String (ascii_of_N 10) "a/c");
                                             Js.JInt (-12); Js.JNum 1.5; Js.JArr []; Js.JObj []]))
  = Some (Js.PArr [Js.PStr (String (ascii_of_N 10) "a/c"); Js.PNum "-12"; Js.PNum "1.5";
                   Js.PArr []; Js.PObj []]).
Proof. vm_compute. reflexivity. Qed.

Example btoa_padding : map Js.btoa ["Man"; "Ma"; "M"] = ["TWFu"; "TWE="; "TQ=="].
Proof. vm_compute. reflexivity. Qed.

Example metadata_body_taipei :
  Upload.metadata_body (Scenario.save (Val tt) (Val 200) (Val 200))
                       (react Scenario.recorded) Scenario.taipei
  = Js.join ","
      [ String "{" (Js.quote "timestamp" ++ ":" ++ Js.quote "2025-01-01T12:00:00.000Z");
        (Js.quote "mood" ++ ":4");
        (Js.quote "videoUri" ++ ":" ++ Js.quote "clip1.mp4");
        (Js.quote "lat" ++ ":25.033968");
        (Js.quote "lng" ++ ":121.564468}") ]%string.
Proof. vm_compute. reflexivity. Qed.

(** * Further properties of the handlers *)

(** Membership in an explicit list of calls. *)
Ltac in_list := cbn [In]; repeat first [left; reflexivity | right].

(** ** [saveLog] of [Upload] *)

(** X1: a save never throws, and whatever happens its last call is an alert:
    the user is always told how it ended. *)
Theorem upload_save_always_answers (OS : string) (a : Upload.SaveAnswers)
        (s : Sys Upload.State) :
  outcome (Upload.saveLog OS a) s = Val tt
  /\ exists title message,
      last (calls (Upload.saveLog OS a) s) (ConsoleLog []) = Alert title message.
Proof.
  destruct s as [[d m hl hc v r l] tbl]. destruct a as [iso ms [perm pos] ins meta ums vid].
  split_cases; cbn [last]; split; eauto.
Qed.

(** X2: the closing alert of a completed save is shown exactly when the save
    had its video and its coordinates and both requests resolved; whether the
    insert went through plays no part. *)
Theorem upload_success_alert (OS : string) (a : Upload.SaveAnswers) (s : Sys Upload.State) :
  In (Alert "已儲存並上傳" (Some "這次的心情、GPS 與 vlog 影片已上傳到後端。"))
     (calls (Upload.saveLog OS a) s)
  <-> (exists r, saved_record OS a s = Some r)
      /\ (exists status, Upload.metadata a = Val status)
      /\ (exists status, Upload.video a = Val status).
Proof.
  unfold saved_record.
  destruct s as [[d m hl hc v r l] tbl]. destruct a as [iso ms [perm pos] ins meta ums vid].
  split_cases; cbn [In]; split.
  all: try (intros (([] & H1) & ([] & H2) & ([] & H3)); discriminate).
  all: try (intros H; exfalso; intuition discriminate).
  all: try (intros _; repeat split; eauto).
  all: auto 10.
Qed.

(** X3: a save changes nothing of the draft and of the screen but the recent
    view and the location permission it may have asked for: mood, video,
    database handle, camera permission and recording flag are what they
    were, so the next save starts from the same draft. *)
Theorem upload_save_keeps_draft (OS : string) (a : Upload.SaveAnswers)
        (s : Sys Upload.State) :
  let s' := after (Upload.saveLog OS a) s in
  Upload.mood (react s') = Upload.mood (react s)
  /\ Upload.videoUri (react s') = Upload.videoUri (react s)
  /\ Upload.db (react s') = Upload.db (react s)
  /\ Upload.hasCameraPermission (react s') = Upload.hasCameraPermission (react s)
  /\ Upload.isRecording (react s') = Upload.isRecording (react s).
Proof.
  destruct s as [[d m hl hc v r l] tbl]. destruct a as [iso ms [perm pos] ins meta ums vid].
  cbv zeta. split_cases; auto.
Qed.

(** ** The web build and the table *)

Lemma upload_web_handler_no_sql (act : Upload.Action) (s : Sys Upload.State) :
  database (after (Upload.handler "web" act) s) = database s
  /\ existsb is_sql (calls (Upload.handler "web" act) s) = false.
Proof.
  destruct s as [[d m hl hc v r l] tbl].
  destruct act as [[o c rr lp cp np cn sn] | i | [cp cam] | [iso ms [perm pos] ins meta ums vid] | del].
  all: unfold_handlers; change (Upload.isWeb "web") with true.
  all: split_cases; split; reflexivity.
Qed.

Lemma export_web_handler_no_sql (act : FileExport.Action) (s : Sys FileExport.State) :
  database (after (FileExport.handler "web" act) s) = database s
  /\ existsb is_sql (calls (FileExport.handler "web" act) s) = false.
Proof.
  destruct s as [[db m loc hl hc v r l] tbl].
  destruct act as [[o c rr lp cp np cn sn] | i | [cp cam] | [perm pos] | [iso ms ins]
                  | [rows at_ dir fms w sh em ej] | del].
  all: unfold_export; change (FileExport.isWeb "web") with true.
  all: split_export; split; reflexivity.
Qed.

(** X4: on the web no handler of either screen makes a call to the database,
    and no sequence of actions changes the table. *)
Theorem web_never_touches_table
        (uacts : list Upload.Action) (us : Sys Upload.State)
        (eacts : list FileExport.Action) (es : Sys FileExport.State) :
  database (Upload.run "web" uacts us) = database us
  /\ database (FileExport.run "web" eacts es) = database es
  /\ (forall act s, existsb is_sql (calls (Upload.handler "web" act) s) = false)
  /\ (forall act s, existsb is_sql (calls (FileExport.handler "web" act) s) = false).
Proof.
  refine (conj _ (conj _ (conj _ _))).
  - revert us. induction uacts as [|act acts IH]; intros s; simpl; [reflexivity|].
    rewrite IH. apply upload_web_handler_no_sql.
  - revert es. induction eacts as [|act acts IH]; intros s; simpl; [reflexivity|].
    rewrite IH. apply export_web_handler_no_sql.
  - intros act s. apply upload_web_handler_no_sql.
  - intros act s. apply export_web_handler_no_sql.
Qed.

(** ** Launch *)

(** What a launch leaves depends on the table and on the answers only, and it
    leaves the table as it is. *)
Lemma launch_from_table (OS : string) (a : Upload.InitAnswers) (s1 s2 : Sys Upload.State) :
  database s1 = database s2 ->
  after (Upload.handler OS (Upload.Launch a)) s1
  = after (Upload.handler OS (Upload.Launch a)) s2
  /\ database (after (Upload.handler OS (Upload.Launch a)) s1) = database s1.
Proof.
  destruct s1 as [[d1 m1 hl1 hc1 v1 r1 l1] tbl1], s2 as [[d2 m2 hl2 hc2 v2 r2 l2] tbl2].
  destruct a as [o c rr lp cp np cn sn]. cbn [database]. intros <-.
  split_cases; split; reflexivity.
Qed.

(** X5: launching is idempotent and loses nothing: a second launch with the
    same answers leaves exactly the system the first one left, and a launch
    never changes the table. *)
Theorem launch_idempotent (OS : string) (a : Upload.InitAnswers) (s : Sys Upload.State) :
  Upload.run OS [Upload.Launch a; Upload.Launch a] s = Upload.run OS [Upload.Launch a] s
  /\ database (Upload.run OS [Upload.Launch a] s) = database s.
Proof.
  cbn [Upload.run fold_left].
  destruct (launch_from_table OS a s s eq_refl) as (_ & Hd).
  split; [|exact Hd].
  now apply launch_from_table.
Qed.

(** Until the screen is launched again, one without a database handle stays
    without it, and leaves the table as it is. *)
Lemma without_database_stays (OS : string) (acts : list Upload.Action)
      (s : Sys Upload.State) :
  forallb (fun act => negb (is_launch act)) acts = true ->
  Upload.db (react s) = false ->
  Upload.db (react (Upload.run OS acts s)) = false
  /\ database (Upload.run OS acts s) = database s.
Proof.
  revert s. induction acts as [|act acts IH]; intros s Hacts Hdb; [split; [exact Hdb | reflexivity]|].
  cbn [forallb] in Hacts. apply andb_prop in Hacts as [Hact Hacts].
  assert (Hstep : Upload.db (react (after (Upload.handler OS act) s)) = false
                  /\ database (after (Upload.handler OS act) s) = database s).
  { revert Hdb Hact. clear.
    destruct s as [[d m hl hc v r l] tbl].
    destruct act as [a | i | [cp cam] | [iso ms [perm pos] ins meta ums vid] | del];
      cbn [is_launch negb react Upload.db]; intros Hdb Hact; try discriminate Hact; subst d.
    all: split_cases; split; reflexivity. }
  destruct Hstep as [Hdb' Htbl'].
  cbn [Upload.run fold_left]. fold (Upload.run OS acts (after (Upload.handler OS act) s)).
  destruct (IH _ Hacts Hdb') as [H1 H2]. split; [exact H1 | now rewrite H2].
Qed.

(** A save on a screen without a database handle makes no insert, and goes
    on to the metadata request whenever it has a video and a location. *)
Lemma save_without_database (OS : string) (sa : Upload.SaveAnswers) (s : Sys Upload.State) :
  Upload.db (react s) = false ->
  ~ In LocalAppend (legs (calls (Upload.saveLog OS sa) s))
  /\ database (after (Upload.saveLog OS sa) s) = database s
  /\ (forall r, saved_record OS sa s = Some r ->
                In MetadataLeg (legs (calls (Upload.saveLog OS sa) s))).
Proof.
  unfold saved_record.
  destruct s as [[d m hl hc v r l] tbl]. destruct sa as [iso ms [perm pos] ins meta ums vid].
  cbn [react Upload.db]. intros ->.
  split_cases; cbn [legs leg_of In].
  all: refine (conj _ (conj eq_refl _)); [intuition discriminate|].
  all: intros r0 H; try discriminate H; auto.
Qed.

(** X6: when the database cannot be opened, created or read at launch on a
    device, the screen is left without a database handle and with an empty
    recent view, and the permissions are still asked for.  Whatever is
    pressed afterwards, until the next launch the screen stays without the
    handle and the table stays as it was: every save, also one that has a
    video and a location and goes on to the metadata request, makes no
    insert. *)
Theorem launch_without_database (OS : string) (a : Upload.InitAnswers)
        (s : Sys Upload.State) (e : string) (acts : list Upload.Action) :
  Upload.isWeb OS = false ->
  Upload.open_database a = Throw e
  \/ Upload.create_table a = Throw e
  \/ Upload.recent_rows a = Throw e ->
  forallb (fun act => negb (is_launch act)) acts = true ->
  let s1 := after (Upload.handler OS (Upload.Launch a)) s in
  let s2 := Upload.run OS acts s1 in
  Upload.db (react s1) = false
  /\ Upload.logs (react s1) = []
  /\ (exists e', In (ConsoleLog ["SQLite init error:"; e'])
                      (calls (Upload.handler OS (Upload.Launch a)) s))
  /\ In RequestLocationPermission (calls (Upload.handler OS (Upload.Launch a)) s)
  /\ Upload.db (react s2) = false
  /\ database s2 = database s
  /\ forall sa,
       ~ In LocalAppend (legs (calls (Upload.saveLog OS sa) s2))
       /\ database (after (Upload.saveLog OS sa) s2) = database s
       /\ (forall r, saved_record OS sa s2 = Some r ->
                     In MetadataLeg (legs (calls (Upload.saveLog OS sa) s2))).
Proof.
  intros Hweb Hfail Hacts s1 s2.
  assert (H3 : Upload.db (react s1) = false
               /\ Upload.logs (react s1) = []
               /\ (exists e', In (ConsoleLog ["SQLite init error:"; e'])
                                   (calls (Upload.handler OS (Upload.Launch a)) s))
               /\ In RequestLocationPermission
                     (calls (Upload.handler OS (Upload.Launch a)) s)).
  { subst s1. revert Hweb Hfail. clear.
    destruct s as [[d m hl hc v r l] tbl]. destruct a as [o c rr lp cp np cn sn].
    cbn [Upload.open_database Upload.create_table Upload.recent_rows].
    split_cases; intros Hweb Hfail; try discriminate Hweb.
    all: first [ solve [destruct Hfail as [H | [H | H]]; discriminate H]
               | refine (conj eq_refl (conj eq_refl (conj (ex_intro _ _ _) _)));
                 in_list ]. }
  destruct H3 as (Hdb & Hlogs & Hlog & Hperm).
  destruct (without_database_stays OS acts s1 Hacts Hdb) as [Hdb2 Htbl2].
  fold s2 in Hdb2, Htbl2.
  assert (Htbl1 : database s1 = database s).
  { subst s1. apply (launch_from_table OS a s s eq_refl). }
  refine (conj Hdb (conj Hlogs (conj Hlog (conj Hperm (conj Hdb2 (conj _ _)))))).
  - now rewrite Htbl2.
  - intros sa. destruct (save_without_database OS sa s2 Hdb2) as (Hno & Hsame & Hmeta).
    refine (conj Hno (conj _ Hmeta)). now rewrite Hsame, Htbl2.
Qed.

Lemma launch_without_database_witness :
  In MetadataLeg
     (legs (calls (Upload.saveLog "ios" (Scenario.save (Val tt) (Val 200) (Val 200)))
              (Upload.run "ios" [Upload.PressMood 3; Upload.PressRecord Scenario.clip]
                 (after (Upload.handler "ios"
                           (Upload.Launch
                              (Upload.mkInitAnswers (Throw "cannot open") (Val tt) (Val tt)
                                 (Val "granted") (Val "granted") (Val "denied")
                                 (Val tt) (fun _ => Val "reminder"))))
                        Upload.fresh_install)))).
Proof.
  pose proof (launch_without_database "ios"
                (Upload.mkInitAnswers (Throw "cannot open") (Val tt) (Val tt)
                   (Val "granted") (Val "granted") (Val "denied")
                   (Val tt) (fun _ => Val "reminder"))
                Upload.fresh_install "cannot open"
                [Upload.PressMood 3; Upload.PressRecord Scenario.clip]
                eq_refl (or_introl eq_refl) eq_refl) as H.
  cbv zeta in H. destruct H as (_ & _ & _ & _ & _ & _ & H).
  destruct (H (Scenario.save (Val tt) (Val 200) (Val 200))) as (_ & _ & Hmeta).
  exact (Hmeta _ eq_refl).
Defined.

(** X7: a save whose insert went through survives a relaunch: the relaunched
    screen shows the record first, now under the id the table gave it in
    place of the clock reading it carried in memory. *)
Theorem saved_record_survives_relaunch
        (OS : string) (a : Upload.SaveAnswers) (ia : Upload.InitAnswers)
        (s : Sys Upload.State) (loc : Coords) :
  Upload.isWeb OS = false ->
  Upload.db (react s) = true ->
  truthy (Upload.videoUri (react s)) = true ->
  outcome (Upload.getLocationForSave OS (Upload.location a)) s = Val (Some loc) ->
  Upload.insert a = Val tt ->
  Sqlite.wf (database s) ->
  Upload.open_database ia = Val tt ->
  Upload.create_table ia = Val tt ->
  Upload.recent_rows ia = Val tt ->
  hd_error (Upload.logs (react (Upload.run OS [Upload.PressSave a; Upload.Launch ia] s)))
  = Some (Log.mk (Sqlite.next_rowid (database s)) (Upload.now_iso a)
                 (Upload.mood (react s)) (or_empty (Upload.videoUri (react s)))
                 (c_lat loc) (c_lng loc)).
Proof.
  intros Hweb Hdb Hv Hloc Hins Hwf Ho Hc Hr.
  cbn [Upload.run fold_left].
  rewrite (launch_loads_recent OS ia _ Hweb Ho Hc Hr).
  destruct (saveLog_appends OS a s loc Hv Hloc) as (_ & _ & Htbl & _).
  cbn [Upload.handler]. rewrite Htbl.
  unfold table_after_save. rewrite Hweb, Hdb, Hins. cbn [negb andb].
  unfold Sqlite.select_desc_limit5.
  rewrite select_asc_wf by now apply wf_insert.
  unfold Sqlite.insert. cbn [Sqlite.rows]. rewrite rev_app_distr. reflexivity.
Qed.

Lemma saved_record_survives_relaunch_witness :
  hd_error
    (Upload.logs
       (react (Upload.run "ios"
                 [Upload.PressSave (Scenario.save (Val tt) (Val 200) (Val 200));
                  Upload.Launch Scenario.init_ok]
                 Scenario.recorded)))
  = Some (Log.mk 1 "2025-01-01T12:00:00.000Z" 4 "clip1.mp4" 25.033968 121.564468).
Proof.
  exact (saved_record_survives_relaunch
           "ios" (Scenario.save (Val tt) (Val 200) (Val 200)) Scenario.init_ok
           Scenario.recorded Scenario.taipei
           eq_refl eq_refl eq_refl eq_refl eq_refl wf_empty eq_refl eq_refl eq_refl).
Defined.

(** ** [clearLogs] *)

(** X8: clearing is all or nothing.  When the delete throws, screen and table
    are exactly what they were and the user is told; otherwise the recent
    view is empty, the recorded video is dropped, the mood is kept, and on a
    device with its database the table is empty, its counter unchanged. *)
Theorem clear_all_or_nothing (OS : string) (delete : Result unit) (s : Sys Upload.State) :
  let s' := after (Upload.clearLogs OS delete) s in
  let t := calls (Upload.clearLogs OS delete) s in
  outcome (Upload.clearLogs OS delete) s = Val tt
  /\ Upload.mood (react s') = Upload.mood (react s)
  /\ if negb (Upload.isWeb OS) && Upload.db (react s) then
       match delete with
       | Val _ =>
           Upload.logs (react s') = [] /\ Upload.videoUri (react s') = None
           /\ Sqlite.rows (database s') = []
           /\ Sqlite.seq (database s') = Sqlite.seq (database s)
           /\ last t (ConsoleLog []) = Alert "已清除" (Some "所有紀錄已清除。")
       | Throw _ =>
           s' = s
           /\ last t (ConsoleLog []) = Alert "清除失敗" (Some "請查看 console log。")
       end
     else
       Upload.logs (react s') = [] /\ Upload.videoUri (react s') = None
       /\ database s' = database s
       /\ t = [Alert "已清除" (Some "所有紀錄已清除。")].
Proof.
  destruct s as [[d m hl hc v r l] tbl]. cbv zeta.
  destruct delete as [[]|e], d, (Upload.isWeb OS) eqn:Hweb.
  all: unfold Upload.clearLogs, bind, try_catch, snapshot, runAsync, await, ret,
         alert, console_log, Upload.setLogs, Upload.setVideoUri, set_state,
         outcome, after, calls.
  all: cbn; rewrite ?Hweb; cbn; auto 10.
Qed.

(** ** The table *)

Lemma seq_replay_grows (h : list Sqlite.stmt) (d : Sqlite.t) :
  Sqlite.seq d <= Sqlite.seq (Sqlite.replay d h).
Proof.
  unfold Sqlite.replay. revert d.
  induction h as [|q h IH]; intros d; simpl; [lia|].
  etransitivity; [|apply IH].
  destruct q; simpl; unfold Sqlite.next_rowid; lia.
Qed.

Lemma wf_ids_distinct (d : Sqlite.t) : Sqlite.wf d -> NoDup (map Log.id (Sqlite.rows d)).
Proof.
  intros [Hs _]. induction Hs as [|r l Hs IH Hr]; simpl; constructor; [|exact IH].
  intros Hin. apply in_map_iff in Hin. destruct Hin as (x & Hx & Hin).
  rewrite Forall_forall in Hr. specialize (Hr x Hin). unfold Sqlite.by_id in Hr. lia.
Qed.

(** X9: an id is never given twice, not even after [DELETE FROM logs]: after
    any history of inserts and deletes the rows have distinct ids, and the id
    of the next insert is above the id of every row the table held before the
    history, deleted or not. *)
Theorem rowids_never_reused (d : Sqlite.t) (h : list Sqlite.stmt) :
  Sqlite.wf d ->
  NoDup (map Log.id (Sqlite.rows (Sqlite.replay d h)))
  /\ Forall (fun r => Log.id r < Sqlite.next_rowid (Sqlite.replay d h)) (Sqlite.rows d)
  /\ Forall (fun r => Log.id r < Sqlite.next_rowid (Sqlite.replay d h))
            (Sqlite.rows (Sqlite.replay d h)).
Proof.
  intros Hwf.
  assert (Hwf' := wf_replay h d Hwf).
  refine (conj (wf_ids_distinct _ Hwf') (conj _ _)).
  - destruct Hwf as [_ Hb]. eapply Forall_impl; [|exact Hb]. simpl.
    intros r Hr. pose proof (seq_replay_grows h d).
    unfold Sqlite.next_rowid. lia.
  - destruct Hwf' as [_ Hb]. eapply Forall_impl; [|exact Hb]. simpl.
    intros r Hr. unfold Sqlite.next_rowid. lia.
Qed.

Lemma rowids_never_reused_witness :
  Sqlite.rows
    (Sqlite.replay Sqlite.empty
       [ Sqlite.Insert "2025-01-01T12:00:00.000Z" 4 "clip1.mp4" 25.033968 121.564468;
         Sqlite.DeleteAll;
         Sqlite.Insert "2025-01-01T13:00:00.000Z" 2 "clip2.mp4" 25.033968 121.564468 ])
  = [Log.mk 2 "2025-01-01T13:00:00.000Z" 2 "clip2.mp4" 25.033968 121.564468]
  /\ NoDup (map Log.id
             (Sqlite.rows
                (Sqlite.replay Sqlite.empty
                   [ Sqlite.Insert "2025-01-01T12:00:00.000Z" 4 "clip1.mp4"
                                   25.033968 121.564468;
                     Sqlite.DeleteAll;
                     Sqlite.Insert "2025-01-01T13:00:00.000Z" 2 "clip2.mp4"
                                   25.033968 121.564468 ]))).
Proof.
  split; [reflexivity|].
  exact (proj1 (rowids_never_reused Sqlite.empty _ wf_empty)).
Defined.

(** ** Launch: reminders and permissions *)

(** X10: the reminders.  A launch talks to the notification scheduler only on
    a device, only once the two earlier permission requests have come back
    and the notification permission is granted.  It then first cancels what
    was scheduled and asks for 9:00, 15:00 and 21:00 in this order, up to the
    first call the scheduler rejects: when all four go through the effect
    ends well with the four calls made, and a rejected call ends the effect
    with what the scheduler threw, the later reminders not asked for. *)
Theorem launch_schedules_reminders (OS : string) (a : Upload.InitAnswers)
        (s : Sys Upload.State) :
  let due := negb (Upload.isWeb OS)
             && match Upload.init_location_permission a, Upload.init_camera_permission a with
                | Val _, Val _ => granted (Upload.notification_permission a)
                | _, _ => false
                end in
  let asked := filter is_notification (calls (Upload.init OS a) s) in
  let reminders := [ CancelAllScheduledNotifications;
                     ScheduleNotification 9 0; ScheduleNotification 15 0;
                     ScheduleNotification 21 0 ] in
  (if due then exists k, asked = firstn (S k) reminders else asked = [])
  /\ (due = true ->
      Upload.cancel_notifications a = Val tt ->
      (forall hour, In hour [9; 15; 21] ->
                    exists id, Upload.schedule_notification a hour = Val id) ->
      asked = reminders /\ outcome (Upload.init OS a) s = Val tt)
  /\ (forall e, due = true ->
                Upload.cancel_notifications a = Throw e ->
                asked = [CancelAllScheduledNotifications]
                /\ outcome (Upload.init OS a) s = Throw e)
  /\ (forall e hour before,
        due = true ->
        Upload.cancel_notifications a = Val tt ->
        In (before, hour) [([], 9); ([9], 15); ([9; 15], 21)] ->
        (forall h, In h before -> exists id, Upload.schedule_notification a h = Val id) ->
        Upload.schedule_notification a hour = Throw e ->
        asked = CancelAllScheduledNotifications
                :: map (fun h => ScheduleNotification h 0) (before ++ [hour])
        /\ outcome (Upload.init OS a) s = Throw e).
Proof.
  destruct s as [[d m hl hc v r l] tbl]. destruct a as [o c rr lp cp np cn sn].
  unfold granted. cbn [Upload.init_location_permission Upload.init_camera_permission
                       Upload.notification_permission Upload.cancel_notifications
                       Upload.schedule_notification].
  cbv zeta. refine (conj _ (conj _ (conj _ _))).
  - split_cases;
      first [ reflexivity
            | exists 0%nat; reflexivity | exists 1%nat; reflexivity
            | exists 2%nat; reflexivity | exists 3%nat; reflexivity ].
  - intros Hdue Hc Hs.
    destruct (Hs 9) as [i9 H9]; [in_list|].
    destruct (Hs 15) as [i15 H15]; [in_list|].
    destruct (Hs 21) as [i21 H21]; [in_list|].
    revert Hdue. subst cn. clear Hs.
    split_cases; intros Hdue; try discriminate Hdue; try congruence.
    all: split; reflexivity.
  - intros e Hdue Hc. revert Hdue. subst cn.
    split_cases; intros Hdue; try discriminate Hdue.
    all: split; reflexivity.
  - intros e hour before Hdue Hc Hin Hbefore Hthrow. subst cn.
    cbn [In] in Hin. destruct Hin as [Hin | [Hin | [Hin | []]]];
      injection Hin as <- <-; cbn [app map].
    + revert Hdue. split_cases; intros Hdue; try discriminate Hdue; try congruence.
      all: split; [reflexivity | congruence].
    + destruct (Hbefore 9) as [i9 H9]; [in_list|]. clear Hbefore.
      revert Hdue. split_cases; intros Hdue; try discriminate Hdue; try congruence.
      all: split; [reflexivity | congruence].
    + destruct (Hbefore 9) as [i9 H9]; [in_list|].
      destruct (Hbefore 15) as [i15 H15]; [in_list|]. clear Hbefore.
      revert Hdue. split_cases; intros Hdue; try discriminate Hdue; try congruence.
      all: split; [reflexivity | congruence].
Qed.

(** On a phone whose scheduler rejects the reminder of 15:00: the one of
    21:00 is not asked for, and the effect ends with what was thrown. *)
Example launch_reminder_rejected :
  let a := Upload.mkInitAnswers (Val tt) (Val tt) (Val tt)
             (Val "granted") (Val "granted") (Val "granted") (Val tt)
             (fun hour => if hour =? 15 then Throw "quota" else Val "reminder") in
  filter is_notification (calls (Upload.init "ios" a) Upload.fresh_install)
  = [CancelAllScheduledNotifications; ScheduleNotification 9 0; ScheduleNotification 15 0]
  /\ outcome (Upload.init "ios" a) Upload.fresh_install = Throw "quota".
Proof. split; reflexivity. Qed.

(** ** [recordOneSecondVlog] *)

(** X11: recording touches neither the table, nor the recent view, nor the
    mood; the draft video changes only on a device, with the camera
    permission granted, when the camera comes back uncancelled with an
    asset, and then to the uri of its first asset; and a screen that was not
    recording is not left recording, also when the camera throws. *)
Theorem record_sets_video_only_from_camera (OS : string) (a : Upload.RecordAnswers)
        (s : Sys Upload.State) :
  let s' := after (Upload.recordOneSecondVlog OS a) s in
  database s' = database s
  /\ Upload.logs (react s') = Upload.logs (react s)
  /\ Upload.mood (react s') = Upload.mood (react s)
  /\ Upload.videoUri (react s')
     = (if negb (Upload.isWeb OS) && granted (Upload.camera_permission a) then
          match Upload.camera a with
          | Val (mkCameraResult false (Some (uri :: _))) => Some uri
          | _ => Upload.videoUri (react s)
          end
        else Upload.videoUri (react s))
  /\ (Upload.isRecording (react s) = false -> Upload.isRecording (react s') = false).
Proof.
  destruct s as [[d m hl hc v r l] tbl]. destruct a as [cp cam].
  unfold granted. cbn [Upload.camera_permission Upload.camera]. cbv zeta.
  split_cases; refine (conj _ (conj _ (conj _ (conj _ _)))); auto.
  all: cbn [canceled assets] in *; congruence.
Qed.

(** ** [getLocationForSave] on a device *)

(** X12: on a device the permission is asked for exactly when the screen does
    not hold it yet, the position is asked for only with the permission held
    or just granted, and coordinates come back only as the position the
    provider gave. *)
Theorem device_location_needs_permission (OS : string) (a : Upload.LocationAnswers)
        (s : Sys Upload.State) :
  Upload.isWeb OS = false ->
  let t := calls (Upload.getLocationForSave OS a) s in
  (In RequestLocationPermission t <-> Upload.hasLocationPermission (react s) = false)
  /\ (In GetCurrentPosition t <->
      Upload.hasLocationPermission (react s) = true \/ granted (Upload.permission a) = true)
  /\ (forall loc, outcome (Upload.getLocationForSave OS a) s = Val (Some loc) ->
      In GetCurrentPosition t
      /\ exists got, Upload.position a = Val got
                     /\ loc = mkCoords (c_lat got) (c_lng got)).
Proof.
  destruct s as [[d m hl hc v r l] tbl]. destruct a as [perm pos].
  unfold granted. cbn [Upload.permission Upload.position react Upload.hasLocationPermission].
  intros Hweb. cbv zeta. revert Hweb.
  split_cases; intros Hweb; try discriminate Hweb.
  all: cbn [In]; refine (conj _ (conj _ _)).
  all: try (split; intros H; try discriminate H; intuition (try discriminate; auto)).
  all: intros loc H; try discriminate H; injection H as <-; split; eauto.
Qed.

Lemma device_location_needs_permission_witness :
  In GetCurrentPosition
     (calls (Upload.getLocationForSave "ios" Scenario.gps_ok) Scenario.recorded).
Proof.
  pose proof (device_location_needs_permission "ios" Scenario.gps_ok Scenario.recorded
                eq_refl) as H.
  cbv zeta in H. destruct H as (_ & H & _).
  apply H. left. reflexivity.
Defined.

(** ** [shareVideo] *)

(** X13: sharing never throws and changes nothing; the share sheet is opened
    exactly for a non-empty uri, with that uri; a record without video ends
    in an alert, and so does a share sheet that throws: the alert shows the
    message of what was thrown, or [未知錯誤] when that has none. *)
Theorem share_video_safe (uri : option string) (share : Result unit)
        (message : option string) (s : Sys Upload.State) :
  outcome (Upload.shareVideo uri share message) s = Val tt
  /\ after (Upload.shareVideo uri share message) s = s
  /\ calls (Upload.shareVideo uri share message) s
     = if truthy uri then
         ShareSheet (or_empty uri) "Emogo 影片紀錄" "Emogo VLOG"
         :: match share, message with
            | Val _, _ => []
            | Throw _, Some m => [Alert "影片分享失敗" (Some m)]
            | Throw _, None => [Alert "影片分享失敗" (Some "未知錯誤")]
            end
       else [Alert "此紀錄沒有影片" None].
Proof.
  unfold Upload.shareVideo, try_catch, alert, alert1, await, outcome, after, calls.
  destruct (truthy uri), share as [[]|e], message; cbn; auto.
Qed.

(** ** The exporting screen *)

(** X14: with a location taken, a save of the exporting screen never throws
    and always shows the record first, keeping mood, video and location for
    the next save.  It stores the record only on a device with its database
    and an insert that went through; an insert that throws is reported by
    the alert of a failed save; on the web the user is told the record is
    only listed; and on a device without database the save says nothing. *)
Theorem export_screen_save (OS : string) (a : FileExport.SaveAnswers)
        (s : Sys FileExport.State) (loc : Coords) :
  FileExport.location (react s) = Some loc ->
  let s' := after (FileExport.saveLog OS a) s in
  let q := Sqlite.Insert (FileExport.now_iso a) (FileExport.mood (react s))
                         (or_empty (FileExport.videoUri (react s)))
                         (c_lat loc) (c_lng loc) in
  outcome (FileExport.saveLog OS a) s = Val tt
  /\ FileExport.logs (react s')
     = push_recent (FileExport.newLog a (react s) loc) (FileExport.logs (react s))
  /\ FileExport.mood (react s') = FileExport.mood (react s)
  /\ FileExport.videoUri (react s') = FileExport.videoUri (react s)
  /\ FileExport.location (react s') = Some loc
  /\ (if negb (FileExport.isWeb OS) && FileExport.db (react s) then
        match FileExport.insert a with
        | Val _ =>
            database s' = Sqlite.exec (database s) q
            /\ calls (FileExport.saveLog OS a) s
               = [RunAsync q; Alert "已儲存" (Some "這次的情緒、vlog 與 GPS 已存入 SQLite。")]
        | Throw e =>
            database s' = database s
            /\ calls (FileExport.saveLog OS a) s
               = [RunAsync q; ConsoleLog ["Insert error:"; e];
                  Alert "儲存失敗" (Some "請查看 console log。")]
        end
      else
        database s' = database s
        /\ legs (calls (FileExport.saveLog OS a) s) = []
        /\ (FileExport.isWeb OS = false -> calls (FileExport.saveLog OS a) s = [])).
Proof.
  destruct s as [[db m l0 hl hc v r l] tbl]. destruct a as [iso ms ins].
  cbn [react FileExport.location]. intros ->. cbv zeta.
  unfold FileExport.newLog.
  split_export; cbn [legs leg_of]; repeat split; auto; discriminate.
Qed.

Lemma export_screen_save_witness :
  calls (FileExport.saveLog "ios"
           (FileExport.mkSaveAnswers "2025-01-01T13:00:00.000Z" 1735736400000
                                     (Throw "disk full")))
        Scenario.one_record
  = [ RunAsync (Sqlite.Insert "2025-01-01T13:00:00.000Z" 4 "clip1.mp4"
                              25.033968 121.564468);
      ConsoleLog ["Insert error:"; "disk full"];
      Alert "儲存失敗" (Some "請查看 console log。") ].
Proof.
  pose proof (export_screen_save "ios"
                (FileExport.mkSaveAnswers "2025-01-01T13:00:00.000Z" 1735736400000
                                          (Throw "disk full"))
                Scenario.one_record Scenario.taipei eq_refl) as H.
  cbv zeta in H. destruct H as (_ & _ & _ & _ & _ & H).
  exact (proj2 H).
Defined.

(** X15: an export never throws and changes neither screen nor table; the
    share sheet is opened only on a device with a document directory, after
    the file was written without an exception, and for the file just
    written; on the web nothing is written or shared. *)
Theorem export_shares_what_it_wrote (OS : string) (a : FileExport.ExportAnswers)
        (s : Sys FileExport.State) :
  let t := calls (FileExport.exportLogsAsJson OS a) s in
  outcome (FileExport.exportLogsAsJson OS a) s = Val tt
  /\ after (FileExport.exportLogsAsJson OS a) s = s
  /\ (forall url message title,
        In (ShareSheet url message title) t ->
        FileExport.isWeb OS = false
        /\ FileExport.write a = Val tt
        /\ url = (or_empty (FileExport.documentDirectory a) ++ "emogo_logs_"
                  ++ Js.Z_toString (FileExport.file_ms a) ++ ".json")%string
        /\ exists content, In (WriteFile url content) t)
  /\ (forall url content, In (WriteFile url content) t ->
        FileExport.isWeb OS = false /\ truthy (FileExport.documentDirectory a) = true).
Proof.
  destruct s as [[db m loc hl hc v r l] tbl]. destruct a as [rows at_ dir ms w sh em ej].
  cbv zeta. cbn [FileExport.write FileExport.documentDirectory FileExport.file_ms].
  split_export.
  all: repeat match goal with u : unit |- _ => destruct u end.
  all: refine (conj eq_refl (conj eq_refl (conj _ _))).
  all: cbn [In]; intros; intuition (try discriminate).
  all: repeat match goal with
              | H : ShareSheet _ _ _ = ShareSheet _ _ _ |- _ => injection H as <- <- <-
              | H : WriteFile _ _ = WriteFile _ _ |- _ => injection H as <- <-
              end.
  all: try reflexivity; try discriminate; eauto.
Qed.

(** What a save of the exporting screen leaves of the database handle and of
    the table. *)
Lemma export_save_table (OS : string) (a : FileExport.SaveAnswers)
      (s : Sys FileExport.State) (loc : Coords) :
  FileExport.location (react s) = Some loc ->
  FileExport.db (react (after (FileExport.saveLog OS a) s)) = FileExport.db (react s)
  /\ database (after (FileExport.saveLog OS a) s)
     = if negb (FileExport.isWeb OS) && FileExport.db (react s) then
         match FileExport.insert a with
         | Val _ =>
             Sqlite.insert (FileExport.now_iso a) (FileExport.mood (react s))
                           (or_empty (FileExport.videoUri (react s)))
                           (c_lat loc) (c_lng loc) (database s)
         | Throw _ => database s
         end
       else database s.
Proof.
  destruct s as [[db m l0 hl hc v r l] tbl]. destruct a as [iso ms ins].
  cbn [react FileExport.location]. intros ->.
  split_export; split; reflexivity.
Qed.

(** X16: from save to export on a device.  After a save whose insert went
    through, an export prints or writes the payload of the earlier rows
    followed by the new record, and reading that payload back gives the
    earlier records followed by the (timestamp, mood, video, lat, lng) of the
    save, counted once more. *)
Theorem save_then_export (OS : string) (sa : FileExport.SaveAnswers)
        (ea : FileExport.ExportAnswers) (s : Sys FileExport.State) (loc : Coords) :
  FileExport.isWeb OS = false ->
  FileExport.db (react s) = true ->
  FileExport.location (react s) = Some loc ->
  FileExport.insert sa = Val tt ->
  FileExport.all_rows ea = Val tt ->
  Sqlite.wf (database s) ->
  let s1 := after (FileExport.saveLog OS sa) s in
  let saved := (FileExport.now_iso sa, FileExport.mood (react s),
                or_empty (FileExport.videoUri (react s)), c_lat loc, c_lng loc) in
  exists all,
    exported_text (calls (FileExport.exportLogsAsJson OS ea) s1)
    = Some (Js.JSON_stringify_2 (FileExport.payload OS (FileExport.exported_at ea) all))
    /\ FileExport.read_records (FileExport.payload OS (FileExport.exported_at ea) all)
       = Some (map Sqlite.fields (Sqlite.rows (database s)) ++ [saved])
    /\ FileExport.read_count (FileExport.payload OS (FileExport.exported_at ea) all)
       = Some (Z.of_nat (List.length (Sqlite.rows (database s))) + 1).
Proof.
  intros Hweb Hdb Hloc Hins Hrows Hwf s1 saved.
  destruct (export_save_table OS sa s loc Hloc) as (Hdb1 & Htbl).
  fold s1 in Hdb1, Htbl. rewrite Hweb, Hdb, Hins in Htbl. cbn [negb andb] in Htbl.
  set (row := Log.mk (Sqlite.next_rowid (database s)) (FileExport.now_iso sa)
                     (FileExport.mood (react s))
                     (or_empty (FileExport.videoUri (react s))) (c_lat loc) (c_lng loc)).
  exists (Sqlite.rows (database s) ++ [row]).
  assert (Hall : outcome (FileExport.allLogs OS (FileExport.all_rows ea)) s1
                 = Val (Sqlite.rows (database s) ++ [row])).
  { rewrite Hrows. destruct s1 as [st1 d1] eqn:Hs1. cbn [react database] in Hdb1, Htbl.
    rewrite allLogs_source, Hweb, Hdb1, Hdb. cbn [negb andb]. subst d1.
    rewrite select_asc_wf by now apply wf_insert. reflexivity. }
  destruct (read_payload OS (FileExport.exported_at ea) (Sqlite.rows (database s) ++ [row]))
    as (_ & Hcount & Hrec).
  refine (conj _ (conj _ _)).
  - rewrite exported_text_of_export, Hall.
    destruct (Sqlite.rows (database s)); reflexivity.
  - rewrite Hrec, map_app. reflexivity.
  - rewrite Hcount, length_app. cbn [List.length]. f_equal. lia.
Qed.

Lemma save_then_export_witness :
  exists all,
    exported_text
      (calls (FileExport.exportLogsAsJson "ios" (Scenario.export_at "2025-01-02T08:00:00.000Z"))
             (after (FileExport.saveLog "ios"
                       (FileExport.mkSaveAnswers "2025-01-01T13:00:00.000Z" 1735736400000
                                                 (Val tt)))
                    Scenario.one_record))
    = Some (Js.JSON_stringify_2
              (FileExport.payload "ios" "2025-01-02T08:00:00.000Z" all))
    /\ FileExport.read_count (FileExport.payload "ios" "2025-01-02T08:00:00.000Z" all)
       = Some 2.
Proof.
  destruct (save_then_export "ios"
              (FileExport.mkSaveAnswers "2025-01-01T13:00:00.000Z" 1735736400000 (Val tt))
              (Scenario.export_at "2025-01-02T08:00:00.000Z")
              Scenario.one_record Scenario.taipei
              eq_refl eq_refl eq_refl eq_refl eq_refl (wf_insert _ _ _ _ _ _ wf_empty))
    as (all & Ht & _ & Hc).
  exists all. split; [exact Ht | exact Hc].
Defined.

(** X17: from clear to export.  After a clear that went through, the next
    export finds nothing: it neither prints nor writes a document and ends in
    the alert that there is nothing to export. *)
Theorem clear_then_export (OS : string) (delete : Result unit)
        (a : FileExport.ExportAnswers) (s : Sys FileExport.State) :
  (negb (FileExport.isWeb OS) && FileExport.db (react s) = true -> delete = Val tt) ->
  FileExport.all_rows a = Val tt ->
  let s1 := after (FileExport.clearLogs OS delete) s in
  exported_text (calls (FileExport.exportLogsAsJson OS a) s1) = None
  /\ last (calls (FileExport.exportLogsAsJson OS a) s1) (ConsoleLog [])
     = Alert "目前沒有任何紀錄可匯出。" None.
Proof.
  destruct s as [[db m loc hl hc v r l] tbl]. destruct a as [rows at_ dir ms w sh em ej].
  cbn [react FileExport.db FileExport.all_rows]. intros Hdel ->. cbv zeta.
  destruct (FileExport.isWeb OS) eqn:Hweb, db.
  all: cbn [negb andb] in Hdel; try rewrite (Hdel eq_refl).
  all: unfold FileExport.exportLogsAsJson, FileExport.allLogs, FileExport.clearLogs,
         bind, try_catch, snapshot, runAsync, getAllAsc, await, ret, alert, alert1,
         console_log, FileExport.setLogs, FileExport.setVideoUri, FileExport.setLocation,
         set_state, outcome, after, calls.
  all: cbn; rewrite ?Hweb; cbn; split; reflexivity.
Qed.

Lemma clear_then_export_witness :
  exported_text
    (calls (FileExport.exportLogsAsJson "ios" (Scenario.export_at "2025-01-02T08:00:00.000Z"))
           (after (FileExport.clearLogs "ios" (Val tt)) Scenario.one_record))
  = None.
Proof.
  exact (proj1 (clear_then_export "ios" (Val tt)
                  (Scenario.export_at "2025-01-02T08:00:00.000Z") Scenario.one_record
                  (fun _ => eq_refl) eq_refl)).
Defined.

(** X18: [getCurrentLocation] of the exporting screen touches neither table
    nor recent view.  On the web it takes the demonstration pair; on a device
    it takes the position the provider gives, with the permission held or
    just granted, and in every other case (permission refused, an exception)
    the location taken earlier stays in place.  It throws only on a device,
    when a platform call does. *)
Theorem current_location_taken (OS : string) (a : FileExport.LocationAnswers)
        (s : Sys FileExport.State) :
  let s' := after (FileExport.getCurrentLocation OS a) s in
  database s' = database s
  /\ FileExport.logs (react s') = FileExport.logs (react s)
  /\ FileExport.location (react s')
     = (if FileExport.isWeb OS then Some (mkCoords 25.033968 121.564468)
        else if FileExport.hasLocationPermission (react s) || granted (FileExport.permission a)
        then match FileExport.position a with
             | Val got => Some (mkCoords (c_lat got) (c_lng got))
             | Throw _ => FileExport.location (react s)
             end
        else FileExport.location (react s))
  /\ (forall e, outcome (FileExport.getCurrentLocation OS a) s = Throw e ->
      FileExport.isWeb OS = false
      /\ (FileExport.permission a = Throw e \/ FileExport.position a = Throw e)).
Proof.
  destruct s as [[db m loc hl hc v r l] tbl]. destruct a as [perm pos].
  unfold granted. cbn [FileExport.permission FileExport.position]. cbv zeta.
  split_export; refine (conj eq_refl (conj eq_refl (conj _ _))).
  all: try reflexivity; try congruence.
  all: intros e0 H; try discriminate H; injection H as <-; auto.
Qed.

(** ** The screen that opens the export in a browser *)

Ltac unfold_browser :=
  cbv beta iota zeta delta
    [BrowserExport.exportLogsAsJson BrowserExport.openJsonInBrowser BrowserExport.allLogs
     BrowserExport.saveLog BrowserExport.clearLogs BrowserExport.getCurrentLocation
     BrowserExport.setDb BrowserExport.setMood BrowserExport.setLocation
     BrowserExport.setHasLocationPermission BrowserExport.setVideoUri BrowserExport.setLogs
     BrowserExport.db BrowserExport.mood BrowserExport.location
     BrowserExport.hasLocationPermission BrowserExport.videoUri BrowserExport.logs
     BrowserExport.now_iso BrowserExport.now_ms BrowserExport.insert
     BrowserExport.all_rows BrowserExport.exported_at BrowserExport.open_url
     BrowserExport.open_error_message
     bind try_catch snapshot set_state await alert alert1 console_log ret
     runAsync getAllAsc getAllDescLimit5
     calls after outcome react database fst snd negb andb orb app].

Ltac split_browser :=
  repeat (unfold_browser;
          match goal with
          | |- context [match ?x with _ => _ end] =>
              lazymatch x with
              | context [match _ with _ => _ end] => fail
              | _ => destruct x eqn:?
              end
          end).

(** X19: this screen handles no storage exception.  A save whose insert
    throws throws itself, after the record went into the recent view and
    without a word to the user; a clear whose delete throws throws itself and
    clears nothing; an export whose query throws throws itself.  Only the
    failure to open the page is caught and shown. *)
Theorem browser_storage_errors_escape
        (e : string) (s : Sys BrowserExport.State) (loc : Coords)
        (sa : BrowserExport.SaveAnswers) (ea : BrowserExport.ExportAnswers) (OS : string) :
  BrowserExport.db (react s) = true ->
  BrowserExport.location (react s) = Some loc ->
  (BrowserExport.insert sa = Throw e ->
   outcome (BrowserExport.saveLog sa) s = Throw e
   /\ BrowserExport.logs (react (after (BrowserExport.saveLog sa) s))
      = push_recent (BrowserExport.newLog sa (react s) loc) (BrowserExport.logs (react s))
   /\ database (after (BrowserExport.saveLog sa) s) = database s
   /\ existsb (fun c => match c with Alert _ _ => true | _ => false end)
              (calls (BrowserExport.saveLog sa) s) = false)
  /\ (outcome (BrowserExport.clearLogs (Throw e)) s = Throw e
      /\ after (BrowserExport.clearLogs (Throw e)) s = s)
  /\ (BrowserExport.all_rows ea = Throw e ->
      outcome (BrowserExport.exportLogsAsJson OS ea) s = Throw e
      /\ calls (BrowserExport.exportLogsAsJson OS ea) s = [GetAllAsc])
  /\ (BrowserExport.all_rows ea = Val tt ->
      outcome (BrowserExport.exportLogsAsJson OS ea) s = Val tt).
Proof.
  destruct s as [[db m l0 hl v l] tbl]. destruct sa as [iso ms ins], ea as [rows at_ op om].
  cbn [react BrowserExport.db BrowserExport.location BrowserExport.insert
       BrowserExport.all_rows].
  intros -> ->. unfold BrowserExport.newLog.
  refine (conj _ (conj _ (conj _ _))).
  - intros ->. split_browser. repeat split.
  - split_browser. split; reflexivity.
  - intros ->. split_browser. split; reflexivity.
  - intros ->. split_browser.
    all: repeat match goal with u : unit |- _ => destruct u end; reflexivity.
Qed.

Lemma browser_storage_errors_escape_witness :
  outcome (BrowserExport.clearLogs (Throw "disk full"))
          (mkSys (BrowserExport.mkState true 4 (Some Scenario.taipei) true None [])
                 Sqlite.empty)
  = Throw "disk full".
Proof.
  exact (proj1 (proj1 (proj2
           (browser_storage_errors_escape "disk full"
              (mkSys (BrowserExport.mkState true 4 (Some Scenario.taipei) true None [])
                     Sqlite.empty)
              Scenario.taipei
              (BrowserExport.mkSaveAnswers "2025-01-01T12:00:00.000Z" 1735732800000 (Val tt))
              (BrowserExport.mkExportAnswers (Val tt) "2025-01-02T08:00:00.000Z" (Val tt) None)
              "ios" eq_refl eq_refl)))).
Defined.

Lemma no_angle_app (x y : string) :
  no_angle (x ++ y) = no_angle x && no_angle y.
Proof.
  induction x as [|c x IH]; simpl; [reflexivity|].
  rewrite IH. now rewrite !andb_assoc.
Qed.

(** X20: the JSON put into the page cannot close or open an element: after
    the escaping it holds no angle bracket, and a text without angle brackets
    is left as it is. *)
Theorem escaped_json_has_no_angle (jsonString : string) :
  no_angle (BrowserExport.escape_angle jsonString) = true
  /\ (no_angle jsonString = true -> BrowserExport.escape_angle jsonString = jsonString).
Proof.
  split.
  - induction jsonString as [|c rest IH]; [reflexivity|].
    cbn [BrowserExport.escape_angle].
    destruct (Ascii.eqb c "<") eqn:Hlt; [rewrite no_angle_app, IH; reflexivity|].
    destruct (Ascii.eqb c ">") eqn:Hgt; [rewrite no_angle_app, IH; reflexivity|].
    cbn [no_angle]. now rewrite Hlt, Hgt, IH.
  - induction jsonString as [|c rest IH]; [reflexivity|].
    cbn [no_angle BrowserExport.escape_angle].
    destruct (Ascii.eqb c "<"); [discriminate|].
    destruct (Ascii.eqb c ">"); [discriminate|].
    cbn [negb andb]. intros H. now rewrite IH.
Qed.

Lemma escaped_json_has_no_angle_witness :
  BrowserExport.escape_angle "25.033968" = "25.033968".
Proof.
  exact (proj2 (escaped_json_has_no_angle "25.033968") eq_refl).
Defined.

(** ** What is stored, shown and sent *)

(** X21: the three copies of a record agree.  When a save gets as far as its
    record, the record shown first in the recent view, the row handed to the
    insert and the metadata sent to the backend carry the same timestamp,
    mood, video and coordinates: the body of the metadata request is the JSON
    of the record without its id. *)
Theorem upload_sends_what_it_stores (OS : string) (a : Upload.SaveAnswers)
        (s : Sys Upload.State) (r : Log.t) :
  saved_record OS a s = Some r ->
  let t := calls (Upload.saveLog OS a) s in
  hd_error (Upload.logs (react (after (Upload.saveLog OS a) s))) = Some r
  /\ In (FetchJson (BACKEND_BASE_URL ++ "/api/logs")%string
                   (Js.JSON_stringify (FileExport.record_json r))) t
  /\ (negb (Upload.isWeb OS) && Upload.db (react s) = true ->
      In (RunAsync (Sqlite.Insert (Log.timestamp r) (Log.mood r) (Log.videoUri r)
                                  (Log.lat r) (Log.lng r))) t).
Proof.
  unfold saved_record, Upload.newLog, Upload.metadata_body, FileExport.record_json.
  destruct s as [[d m hl hc v rec l] tbl]. destruct a as [iso ms [perm pos] ins meta ums vid].
  cbv zeta. cbn [or_empty].
  split_cases; intros H; try discriminate H; injection H as <-.
  all: cbn [Log.timestamp Log.mood Log.videoUri Log.lat Log.lng].
  all: refine (conj eq_refl (conj _ _)); [in_list | intros Hd; try discriminate Hd; in_list].
Qed.

Lemma upload_sends_what_it_stores_witness :
  In (RunAsync (Sqlite.Insert "2025-01-01T12:00:00.000Z" 4 "clip1.mp4"
                              25.033968 121.564468))
     (calls (Upload.saveLog "ios" (Scenario.save (Val tt) (Val 200) (Val 200)))
            Scenario.recorded).
Proof.
  pose proof (upload_sends_what_it_stores "ios"
                (Scenario.save (Val tt) (Val 200) (Val 200)) Scenario.recorded
                (Log.mk 1735732800000 "2025-01-01T12:00:00.000Z" 4 "clip1.mp4"
                        25.033968 121.564468)
                eq_refl) as H.
  cbv zeta in H. destruct H as (_ & _ & H).
  exact (H eq_refl).
Defined.

(** X22: a save does not empty the draft, so saving twice stores the clip
    twice: after two saves that both go through on a device, the table holds
    its earlier rows followed by two rows with the same mood and the same
    video, under consecutive ids. *)
Theorem saving_twice_stores_twice
        (OS : string) (a1 a2 : Upload.SaveAnswers) (s : Sys Upload.State)
        (loc1 loc2 : Coords) :
  Upload.isWeb OS = false ->
  Upload.db (react s) = true ->
  truthy (Upload.videoUri (react s)) = true ->
  Upload.insert a1 = Val tt ->
  Upload.insert a2 = Val tt ->
  outcome (Upload.getLocationForSave OS (Upload.location a1)) s = Val (Some loc1) ->
  outcome (Upload.getLocationForSave OS (Upload.location a2))
          (after (Upload.saveLog OS a1) s) = Val (Some loc2) ->
  let n := Sqlite.next_rowid (database s) in
  let video := or_empty (Upload.videoUri (react s)) in
  Sqlite.rows (database (Upload.run OS [Upload.PressSave a1; Upload.PressSave a2] s))
  = Sqlite.rows (database s)
    ++ [ Log.mk n (Upload.now_iso a1) (Upload.mood (react s)) video
                (c_lat loc1) (c_lng loc1);
         Log.mk (n + 1) (Upload.now_iso a2) (Upload.mood (react s)) video
                (c_lat loc2) (c_lng loc2) ].
Proof.
  intros Hweb Hdb Hv Hi1 Hi2 Hl1 Hl2 n video.
  cbn [Upload.run fold_left Upload.handler].
  destruct (saveLog_appends OS a1 s loc1 Hv Hl1) as (_ & _ & Ht1 & Hdb1 & Hm1 & Hv1).
  assert (Hv' : truthy (Upload.videoUri (react (after (Upload.saveLog OS a1) s))) = true)
    by now rewrite Hv1.
  destruct (saveLog_appends OS a2 _ loc2 Hv' Hl2) as (_ & _ & Ht2 & _).
  rewrite Ht2. unfold table_after_save in *.
  rewrite Hdb1, Hm1, Hv1, Hweb, Hdb, Hi2. rewrite Hweb, Hdb, Hi1 in Ht1.
  cbn [negb andb] in *. rewrite Ht1.
  unfold Sqlite.insert. cbn [Sqlite.rows Sqlite.seq].
  rewrite <- app_assoc. cbn [app]. do 3 f_equal.
  subst n. f_equal.
  assert (Hmax : forall l x, Sqlite.max_rowid (l ++ [x])
                             = Z.max (Sqlite.max_rowid l) (Z.max (Log.id x) 0)).
  { clear. induction l as [|y l IH]; intros x; simpl; [lia|]. rewrite IH. lia. }
  unfold Sqlite.next_rowid at 1. cbn [Sqlite.rows Sqlite.seq].
  rewrite Hmax. cbn [Log.id]. unfold Sqlite.next_rowid.
  assert (Hpos : 0 <= Sqlite.max_rowid (Sqlite.rows (database s))).
  { clear. induction (Sqlite.rows (database s)) as [|y l IH]; simpl; lia. }
  lia.
Qed.

Lemma saving_twice_stores_twice_witness :
  map Log.id
      (Sqlite.rows
         (database (Upload.run "ios"
                      [Upload.PressSave (Scenario.save (Val tt) (Val 200) (Val 200));
                       Upload.PressSave (Scenario.save (Val tt) (Val 200) (Val 200))]
                      Scenario.recorded)))
  = [1; 2].
Proof.
  pose proof (saving_twice_stores_twice "ios"
                (Scenario.save (Val tt) (Val 200) (Val 200))
                (Scenario.save (Val tt) (Val 200) (Val 200))
                Scenario.recorded Scenario.taipei Scenario.taipei
                eq_refl eq_refl eq_refl eq_refl eq_refl eq_refl eq_refl) as H.
  cbv zeta in H. rewrite H. reflexivity.
Defined.

(** X23: the location permission granted at launch is not asked for again,
    and one not granted then is asked for by the next save: right after a
    launch on a device, [getLocationForSave] requests the permission exactly
    when the launch did not end with it granted. *)
Theorem permission_asked_again_only_if_refused
        (OS : string) (ia : Upload.InitAnswers) (la : Upload.LocationAnswers)
        (s : Sys Upload.State) :
  Upload.isWeb OS = false ->
  (In RequestLocationPermission
      (calls (Upload.getLocationForSave OS la)
             (after (Upload.handler OS (Upload.Launch ia)) s))
   <-> granted (Upload.init_location_permission ia) = false).
Proof.
  destruct s as [[d m hl hc v r l] tbl]. destruct ia as [o c rr lp cp np cn sn], la as [perm pos].
  unfold granted. cbn [Upload.init_location_permission].
  intros Hweb. revert Hweb.
  split_cases; intros Hweb; try discriminate Hweb.
  all: cbn [In]; split; intros H; try discriminate H; try congruence; auto.
  all: intuition discriminate.
Qed.

Lemma permission_asked_again_only_if_refused_witness :
  In RequestLocationPermission
     (calls (Upload.getLocationForSave "ios" Scenario.gps_ok)
            (after (Upload.handler "ios"
                      (Upload.Launch
                         (Upload.mkInitAnswers (Val tt) (Val tt) (Val tt)
                            (Val "denied") (Val "granted") (Val "denied")
                            (Val tt) (fun _ => Val "reminder"))))
                   Upload.fresh_install)).
Proof.
  apply (permission_asked_again_only_if_refused "ios"
           (Upload.mkInitAnswers (Val tt) (Val tt) (Val tt)
              (Val "denied") (Val "granted") (Val "denied")
              (Val tt) (fun _ => Val "reminder"))
           Scenario.gps_ok Upload.fresh_install eq_refl).
  reflexivity.
Defined.
